(** * addons-linter: manifest-version keywords, validation facade,
      API compatibility oracle and the unsupported-API lint rule

    Shallow embedding of
    - [src/schema/validator.js]: the three custom schema keywords
      ([deprecated], [max_manifest_version], [min_manifest_version]),
      [filterErrors] and the five exported [validate*] functions;
    - the lint rule [MemberExpression] visitor;
    - the oracle of [schema/browser-apis], which is exercised by the test
      suite but whose module is not part of the sources at hand.

    JavaScript values are an inductive type, exceptions an error monad,
    and the [errors] property that each function carries is an explicit
    slot that is threaded through the calls. *)

From Stdlib Require Import ZArith.
From stdpp Require Import base strings gmap list pretty.

Set Warnings "-register-all".

Local Open Scope Z_scope.
Local Open Scope string_scope.

(* ===================================================================== *)
(** * JavaScript values and exceptions *)
(* ===================================================================== *)

Module JS.

(** Values that a parsed JSON document (or a missing argument) can be.
    Numbers are integers: a manifest version is an integer generation
    marker, and fractional numbers are outside this model. *)
Inductive value : Type :=
  | VUndefined
  | VNull
  | VBool (b : bool)
  | VNum (n : Z)
  | VStr (s : string)
  | VArr (items : list value)
  | VObj (fields : list (string * value)).

Inductive exn : Type :=
  | TypeError (what : string)
  | ReferenceError (ident : string).

Inductive result (A : Type) : Type :=
  | Ok (a : A)
  | Throw (e : exn).
Arguments Ok {A} a.
Arguments Throw {A} e.

#[global] Instance result_ret : MRet result := fun A a => Ok a.
#[global] Instance result_bind : MBind result := fun A B f r =>
  match r with
  | Ok a => f a
  | Throw e => Throw e
  end.

(** ToBoolean. *)
Definition truthy (v : value) : bool :=
  match v with
  | VUndefined | VNull => false
  | VBool b => b
  | VNum n => negb (Z.eqb n 0)
  | VStr s => negb (String.eqb s EmptyString)
  | VArr _ | VObj _ => true
  end.

Fixpoint assoc (k : string) (fs : list (string * value)) : option value :=
  match fs with
  | [] => None
  | (k', v) :: rest => if String.eqb k k' then Some v else assoc k rest
  end.

(** [v.k] for a key [k] that is not a builtin property of strings, arrays
    or wrappers (as [manifest_version] is not): a [TypeError] on
    [undefined] and [null], the own property of an object, [undefined]
    everywhere else. *)
Definition get (v : value) (k : string) : result value :=
  match v with
  | VUndefined => Throw (TypeError ("Cannot read properties of undefined (reading '" +:+ k +:+ "')"))
  | VNull => Throw (TypeError ("Cannot read properties of null (reading '" +:+ k +:+ "')"))
  | VObj fs => Ok (default VUndefined (assoc k fs))
  | _ => Ok VUndefined
  end.

Section Coercion.
(** Numeric conversion of strings, arrays and objects is left to the
    language runtime; it is never consulted for the primitives below.
    [None] is NaN. *)
Variable coerce : value -> option Z.

Definition ToNumber (v : value) : option Z :=
  match v with
  | VUndefined => None
  | VNull => Some 0
  | VBool b => Some (if b then 1 else 0)
  | VNum n => Some n
  | other => coerce other
  end.

(** [m <= v] and [m >= v] for a number [m]: false as soon as [v]
    converts to NaN. *)
Definition num_le (m : Z) (v : value) : bool :=
  match ToNumber v with
  | Some n => Z.leb m n
  | None => false
  end.

Definition num_ge (m : Z) (v : value) : bool :=
  match ToNumber v with
  | Some n => Z.leb n m
  | None => false
  end.
End Coercion.

(** A runtime that converts nothing but the primitives: enough to run the
    functions on documents whose version is a number or is missing. *)
Definition no_coercion (v : value) : option Z := None.

End JS.
Import JS.

(* ===================================================================== *)
(** * Diagnostics *)
(* ===================================================================== *)

(** An error object.  The keyword functions create objects with a keyword
    and a message only; the engine's own objects carry a data path. *)
Record Diagnostic : Type := mkDiagnostic {
  keyword : string;
  message : string;
  dataPath : option string
}.

(** The [errors] property of a function: never assigned, [null], or an
    array of error objects. *)
Inductive errors_slot : Type :=
  | EUndefined
  | ENull
  | EList (l : list Diagnostic).

Definition slot_truthy (e : errors_slot) : bool :=
  match e with
  | EList _ => true
  | _ => false
  end.

(** The diagnostics that a slot holds. *)
Definition slot_list (e : errors_slot) : list Diagnostic :=
  match e with
  | EList l => l
  | _ => []
  end.

(* ===================================================================== *)
(** * The schema keywords of [src/schema/validator.js] *)
(* ===================================================================== *)

Module Validator.

(** Names bound at the top level of [validator.js]: its imports (lines
    1-20) followed by its own declarations. *)
Definition validator_scope : list string :=
  [ "ajv"; "ajvMergePatch"; "deepPatch"; "schemaObject";
    "themeSchemaObject"; "messagesSchemaObject";
    "DEPRECATED_MANIFEST_PROPERTIES";
    "imageDataOrStrictRelativeUrl"; "isAnyUrl"; "isAbsoluteUrl";
    "isStrictRelativeUrl"; "isSecureUrl"; "isUnresolvedRelativeUrl";
    "isValidVersionString"; "manifestShortcutKey"; "schemas";
    "validator"; "filterErrors";
    "_validateAddon"; "_validateAddonMV3"; "validateAddon";
    "_validateStaticTheme"; "validateStaticTheme";
    "_validateLangPack"; "validateLangPack";
    "_validateDictionary"; "validateDictionary";
    "_validateLocaleMessages"; "validateLocaleMessages" ].

(** Evaluating the identifier [x] in a module that binds [scope]; [v] is
    the value that a binding of [x] holds. *)
Definition identifier (scope : list string) (x : string) (v : value) : result value :=
  if bool_decide (x ∈ scope) then Ok v else Throw (ReferenceError x).

(** Modelled from the spec: the constant [MANIFEST_VERSION_DEFAULT] of the
    [const] module, which is not among the sources; the spec gives the
    default version as 2. *)
Definition MANIFEST_VERSION_DEFAULT : Z := 2.

Definition unsupported_min (minMV : Z) : Diagnostic :=
  {| keyword := "unsupported";
     message := "is in a format only supported with manifest versions >= " +:+ pretty minMV;
     dataPath := None |}.

Definition unsupported_max (maxMV : Z) : Diagnostic :=
  {| keyword := "unsupported";
     message := "is in a format only supported in manifest versions <= " +:+ pretty maxMV;
     dataPath := None |}.

Definition deprecated_error (message : string) : Diagnostic :=
  {| keyword := "deprecated"; message := message; dataPath := None |}.

Section Keywords.
Variable coerce : value -> option Z.

(** The [DEPRECATED_MANIFEST_PROPERTIES] object of the [const] module:
    data path to message identifier. *)
Variable DEPRECATED_MANIFEST_PROPERTIES : gmap string string.

(** [validateDeprecated] (lines 58-82).  The last argument and the
    second component of the result are [validateDeprecated.errors]
    before and after the call. *)
Definition validateDeprecated (message : string) (propValue schema : value)
    (dataPath : string) (errors : errors_slot) : bool * errors_slot :=
  if negb (bool_decide (is_Some (DEPRECATED_MANIFEST_PROPERTIES !! dataPath)))
  then (true, errors)
  else (false, EList [deprecated_error message]).

(** [validateMaxMV] (lines 84-104): five positional parameters, the
    fifth named [rootData]. *)
Definition validateMaxMV (maxMV : Z) (propValue schema : value)
    (dataPath : string) (rootData : value) (errors : errors_slot)
    : result (bool * errors_slot) :=
  manifest_version ← get rootData "manifest_version";
  let res := num_ge coerce maxMV manifest_version in
  if negb res
  then Ok (res, EList [unsupported_max maxMV])
  else Ok (res, errors).

(** [validateMinMV] (lines 106-131) in a module that binds [scope]. *)
Definition validateMinMV_in (scope : list string) (minMV : Z)
    (propValue schema : value) (dataPath : string)
    (parentData parentDataProperty rootData : value) (errors : errors_slot)
    : result (bool * errors_slot) :=
  conj ← (if truthy rootData then get rootData "manifest_version" else Ok rootData);
  manifestVersion ← (if truthy conj then Ok conj
                     else identifier scope "MANIFEST_VERSION_DEFAULT"
                                     (VNum MANIFEST_VERSION_DEFAULT));
  let res := num_le coerce minMV manifestVersion in
  if negb res
  then Ok (res, EList [unsupported_min minMV])
  else Ok (res, errors).

(** The function as the module has it. *)
Definition validateMinMV := validateMinMV_in validator_scope.

(** The seven positional arguments of a keyword call, in the order in
    which [validateMinMV] names them. *)
Record keyword_call : Type := mkCall {
  call_data : value;
  call_parentSchema : value;
  call_dataPath : string;
  call_parentData : value;
  call_parentDataProperty : value;
  call_rootData : value
}.

Definition call_min (minMV : Z) (c : keyword_call) :=
  validateMinMV minMV (call_data c) (call_parentSchema c) (call_dataPath c)
                (call_parentData c) (call_parentDataProperty c) (call_rootData c).

Definition call_max (maxMV : Z) (c : keyword_call) :=
  validateMaxMV maxMV (call_data c) (call_parentSchema c) (call_dataPath c)
                (call_parentData c).

Definition call_deprecated (message : string) (c : keyword_call) :=
  validateDeprecated message (call_data c) (call_parentSchema c) (call_dataPath c).
End Keywords.

(** The call made for a property [p] of the root object of [doc]: the
    parent of the property is the root itself. *)
Definition root_property_call (doc : value) (p : string) : keyword_call :=
  {| call_data := default VUndefined (assoc p match doc with VObj fs => fs | _ => [] end);
     call_parentSchema := VObj [];
     call_dataPath := "/" +:+ p;
     call_parentData := doc;
     call_parentDataProperty := VStr p;
     call_rootData := doc |}.

End Validator.

Import Validator.

(* ===================================================================== *)
(** * The validation facade of [src/schema/validator.js] *)
(* ===================================================================== *)

Module Facade.

(** [filterErrors] (lines 133-140).  An array is truthy even when it is
    empty; [undefined] and [null] are returned as they are. *)
Definition filterErrors (errors : errors_slot) : errors_slot :=
  if slot_truthy errors then
    match errors with
    | EList l => EList (filter (fun error => keyword error ≠ "$merge") l)
    | other => other
    end
  else errors.

(** The validators that [validator.compile] builds at load time. *)
Inductive compiled : Type :=
  | _validateAddon
  | _validateAddonMV3
  | _validateStaticTheme
  | _validateLangPack
  | _validateDictionary
  | _validateLocaleMessages.

(** The [errors] properties of the five exported functions. *)
Record exported : Type := mkExported {
  validateAddon_errors : errors_slot;
  validateStaticTheme_errors : errors_slot;
  validateLangPack_errors : errors_slot;
  validateDictionary_errors : errors_slot;
  validateLocaleMessages_errors : errors_slot
}.

Definition initial : exported :=
  mkExported EUndefined EUndefined EUndefined EUndefined EUndefined.

Definition set_validateAddon_errors (e : errors_slot) (st : exported) : exported :=
  mkExported e (validateStaticTheme_errors st) (validateLangPack_errors st)
             (validateDictionary_errors st) (validateLocaleMessages_errors st).
Definition set_validateStaticTheme_errors (e : errors_slot) (st : exported) : exported :=
  mkExported (validateAddon_errors st) e (validateLangPack_errors st)
             (validateDictionary_errors st) (validateLocaleMessages_errors st).
Definition set_validateLangPack_errors (e : errors_slot) (st : exported) : exported :=
  mkExported (validateAddon_errors st) (validateStaticTheme_errors st) e
             (validateDictionary_errors st) (validateLocaleMessages_errors st).
Definition set_validateDictionary_errors (e : errors_slot) (st : exported) : exported :=
  mkExported (validateAddon_errors st) (validateStaticTheme_errors st)
             (validateLangPack_errors st) e (validateLocaleMessages_errors st).
Definition set_validateLocaleMessages_errors (e : errors_slot) (st : exported) : exported :=
  mkExported (validateAddon_errors st) (validateStaticTheme_errors st)
             (validateLangPack_errors st) (validateDictionary_errors st) e.

Section Entry.
(** A call of a compiled validator on a document: the boolean it
    returns together with its [errors] property after the call, or the
    exception that escapes it.  The schema engine is a dependency of
    the module, not part of it. *)
Variable engine : compiled -> value -> result (bool * errors_slot).

(** [validateAddon] (lines 161-169).  The second parameter is
    destructured with the default [{}]. *)
Definition validateAddon (manifestData options : value) (st : exported)
    : result (bool * exported) :=
  let options := match options with VUndefined => VObj [] | o => o end in
  enableManifestVersion3 ← get options "enableManifestVersion3";
  let _validate :=
    if truthy enableManifestVersion3 then _validateAddonMV3 else _validateAddon in
  '(isValid, errors) ← engine _validate manifestData;
  Ok (isValid, set_validateAddon_errors (filterErrors errors) st).

(** [validateStaticTheme] (lines 199-203). *)
Definition validateStaticTheme (manifestData : value) (st : exported)
    : result (bool * exported) :=
  '(isValid, errors) ← engine _validateStaticTheme manifestData;
  Ok (isValid, set_validateStaticTheme_errors (filterErrors errors) st).

(** [validateLangPack] (lines 227-231). *)
Definition validateLangPack (manifestData : value) (st : exported)
    : result (bool * exported) :=
  '(isValid, errors) ← engine _validateLangPack manifestData;
  Ok (isValid, set_validateLangPack_errors (filterErrors errors) st).

(** [validateDictionary] (lines 253-257). *)
Definition validateDictionary (manifestData : value) (st : exported)
    : result (bool * exported) :=
  '(isValid, errors) ← engine _validateDictionary manifestData;
  Ok (isValid, set_validateDictionary_errors (filterErrors errors) st).

(** [validateLocaleMessages] (lines 265-269). *)
Definition validateLocaleMessages (localeMessagesData : value) (st : exported)
    : result (bool * exported) :=
  '(isValid, errors) ← engine _validateLocaleMessages localeMessagesData;
  Ok (isValid, set_validateLocaleMessages_errors (filterErrors errors) st).

(** The five entry points under one name. *)
Inductive entry : Type :=
  | EAddon (options : value)
  | EStaticTheme
  | ELangPack
  | EDictionary
  | ELocaleMessages.

Definition run (f : entry) (doc : value) (st : exported) : result (bool * exported) :=
  match f with
  | EAddon options => validateAddon doc options st
  | EStaticTheme => validateStaticTheme doc st
  | ELangPack => validateLangPack doc st
  | EDictionary => validateDictionary doc st
  | ELocaleMessages => validateLocaleMessages doc st
  end.

(** The [errors] property of an entry point. *)
Definition errors_of (f : entry) (st : exported) : errors_slot :=
  match f with
  | EAddon _ => validateAddon_errors st
  | EStaticTheme => validateStaticTheme_errors st
  | ELangPack => validateLangPack_errors st
  | EDictionary => validateDictionary_errors st
  | ELocaleMessages => validateLocaleMessages_errors st
  end.

(** Assignment to the [errors] property of an entry point. *)
Definition set_errors_of (f : entry) (e : errors_slot) (st : exported) : exported :=
  match f with
  | EAddon _ => set_validateAddon_errors e st
  | EStaticTheme => set_validateStaticTheme_errors e st
  | ELangPack => set_validateLangPack_errors e st
  | EDictionary => set_validateDictionary_errors e st
  | ELocaleMessages => set_validateLocaleMessages_errors e st
  end.

(** The compiled validator that an entry point calls, when reading its
    options does not throw. *)
Definition selects (f : entry) : result compiled :=
  match f with
  | EAddon options =>
      let options := match options with VUndefined => VObj [] | o => o end in
      enableManifestVersion3 ← get options "enableManifestVersion3";
      Ok (if truthy enableManifestVersion3 then _validateAddonMV3 else _validateAddon)
  | EStaticTheme => Ok _validateStaticTheme
  | ELangPack => Ok _validateLangPack
  | EDictionary => Ok _validateDictionary
  | ELocaleMessages => Ok _validateLocaleMessages
  end.
End Entry.

(** What a compiled validator does for the one-property schema
    [{properties: {p: {min_manifest_version: minMV}}}]: the keyword
    function is called for the property when the document has it, with
    the document as root data, and nothing catches what the function
    throws.  A passing validator leaves [null] in its [errors]. *)
Definition min_version_validator (coerce : value -> option Z) (p : string)
    (minMV : Z) (doc : value) : result (bool * errors_slot) :=
  match doc with
  | VObj fs =>
      match assoc p fs with
      | Some _ =>
          '(res, errors) ← call_min coerce minMV (root_property_call doc p) EUndefined;
          Ok (res, if res : bool then ENull else errors)
      | None => Ok (true, ENull)
      end
  | _ => Ok (true, ENull)
  end.

End Facade.

(* ===================================================================== *)
(** * The compatibility oracle ([schema/browser-apis]) *)
(* ===================================================================== *)

Module Oracle.

(** The module [schema/browser-apis] is imported by the lint rule and
    exercised by the test suite, but its text is not among the sources.
    Everything in this module is written from sections 3, 4.1 and 4.2 of
    the specification. *)

(** Modelled from the spec: [VersionBound], an optional pair; a missing
    side is unconstrained. *)
Record VersionBound : Type := mkBound {
  bound_min : option Z;
  bound_max : option Z
}.

(** Modelled from the spec: [MemberEntry], a name with an optional bound
    (in the test tables: an element of [functions], with
    [min_manifest_version] and [max_manifest_version]). *)
Record MemberEntry : Type := mkMember {
  member_name : string;
  member_bound : option VersionBound
}.

(** Modelled from the spec: [NamespaceEntry]; its name is its key in the
    table. *)
Record NamespaceEntry : Type := mkNamespace {
  namespace_bound : option VersionBound;
  members : list MemberEntry
}.

(** Modelled from the spec: [ManifestMetadata], with an optional version.
    An absent metadata argument is [None] at the call. *)
Record ManifestMetadata : Type := mkMetadata {
  manifestVersion : option Z
}.

(** Modelled from the spec: [intersectMax] of section 4.1. *)
Definition intersectMax (a b : option Z) : option Z :=
  match a, b with
  | Some x, Some y => Some (Z.min x y)
  | Some x, None => Some x
  | None, Some y => Some y
  | None, None => None
  end.

(** Modelled from the spec: [unionMin] of section 4.1; zero when neither
    minimum is present. *)
Definition unionMin (a b : option Z) : Z :=
  match a, b with
  | Some x, Some y => Z.max x y
  | Some x, None => x
  | None, Some y => y
  | None, None => 0
  end.

(** [version >= m] and [version <= m] when the version may be
    [undefined]: a comparison with [undefined] is false. *)
Definition version_ge (version : option Z) (m : Z) : bool :=
  match version with
  | Some v => Z.leb m v
  | None => false
  end.

Definition version_le (version : option Z) (m : Z) : bool :=
  match version with
  | Some v => Z.leb v m
  | None => false
  end.

(** Modelled from the spec: [inRange] of section 4.1. *)
Definition inRange (version : option Z) (bound : VersionBound) : bool :=
  match bound_min bound with
  | None => true
  | Some m => version_ge version m
  end
  &&
  match bound_max bound with
  | None => true
  | Some m => version_le version m
  end.

(** Modelled from the spec: [effectiveManifestVersion] of section 4.2,
    [getManifestVersion] in the test suite.  The result [None] is
    [undefined]. *)
Definition getManifestVersion (addonMetadata : option ManifestMetadata) : option Z :=
  match addonMetadata with
  | None => Some 2
  | Some metadata => manifestVersion metadata
  end.

Definition findMember (member : string) (entry : NamespaceEntry) : option MemberEntry :=
  List.find (fun m => bool_decide (member_name m = member)) (members entry).

(** The maximum and the minimum that the namespace declares, and those
    that the member declares; a lookup that finds nothing yields no
    bound. *)
Definition namespaceMax (table : gmap string NamespaceEntry) (namespace : string) : option Z :=
  entry ← table !! namespace; bound ← namespace_bound entry; bound_max bound.

Definition namespaceMin (table : gmap string NamespaceEntry) (namespace : string) : option Z :=
  entry ← table !! namespace; bound ← namespace_bound entry; bound_min bound.

Definition memberMax (table : gmap string NamespaceEntry) (namespace member : string) : option Z :=
  entry ← table !! namespace; m ← findMember member entry;
  bound ← member_bound m; bound_max bound.

Definition memberMin (table : gmap string NamespaceEntry) (namespace member : string) : option Z :=
  entry ← table !! namespace; m ← findMember member entry;
  bound ← member_bound m; bound_min bound.

(** Modelled from the spec: [maxSupportedVersion] of section 4.2,
    [getMaxManifestVersion] in the test suite. *)
Definition getMaxManifestVersion (namespace member : string)
    (addonMetadata : option ManifestMetadata)
    (table : gmap string NamespaceEntry) : option Z :=
  intersectMax (namespaceMax table namespace) (memberMax table namespace member).

(** Modelled from the spec: [minRequiredVersion] of section 4.2,
    [getMinManifestVersion] in the test suite. *)
Definition getMinManifestVersion (namespace member : string)
    (addonMetadata : option ManifestMetadata)
    (table : gmap string NamespaceEntry) : Z :=
  unionMin (namespaceMin table namespace) (memberMin table namespace member).

Definition qualified (namespace member : string) : string :=
  namespace +:+ "." +:+ member.

(** Modelled from the spec: the [TemporarySet] and the [DeprecatedMap] of
    section 3, [TEMPORARY_APIS] and [DEPRECATED_JAVASCRIPT_APIS] of the
    [const] module, which every function of the oracle has in scope. *)
Record ApiConstants : Type := mkConstants {
  TEMPORARY_APIS : gset string;
  DEPRECATED_JAVASCRIPT_APIS : gmap string (option VersionBound)
}.

Definition no_constants : ApiConstants := mkConstants ∅ ∅.

Section Tables.
Variable constants : ApiConstants.

(** Modelled from the spec: [isTemporary] of section 4.2. *)
Definition isTemporaryApi (namespace member : string) : bool :=
  bool_decide (qualified namespace member ∈ TEMPORARY_APIS constants).

(** Modelled from the spec: [isDeprecated] of section 4.2; an entry
    without a bound is deprecated for every version. *)
Definition isDeprecatedApi (namespace member : string)
    (addonMetadata : option ManifestMetadata) : bool :=
  match DEPRECATED_JAVASCRIPT_APIS constants !! qualified namespace member with
  | None => false
  | Some None => true
  | Some (Some bound) => inRange (getManifestVersion addonMetadata) bound
  end.

(** The effective bound of a listed member. *)
Definition effectiveBound (namespace member : string)
    (addonMetadata : option ManifestMetadata)
    (table : gmap string NamespaceEntry) : VersionBound :=
  {| bound_min := Some (getMinManifestVersion namespace member addonMetadata table);
     bound_max := getMaxManifestVersion namespace member addonMetadata table |}.

(** Modelled from the spec: [hasApi] of section 4.2, [hasBrowserApi] in
    the test suite and in the lint rule. *)
Definition hasBrowserApi (namespace member : string)
    (addonMetadata : option ManifestMetadata)
    (table : gmap string NamespaceEntry) : bool :=
  if isTemporaryApi namespace member then true
  else
    match table !! namespace with
    | None => false
    | Some entry =>
        match findMember member entry with
        | None => false
        | Some _ =>
            inRange (getManifestVersion addonMetadata)
                    (effectiveBound namespace member addonMetadata table)
        end
    end.
End Tables.

(** The tables of the test suite. *)
Definition fakeNs : string := "fakeAPINamespace".
Definition fakeProp : string := "fakeMethod".
Definition fakeMetadata : option ManifestMetadata := Some (mkMetadata (Some 2)).
Definition fakeMetadataV3 : option ManifestMetadata := Some (mkMetadata (Some 3)).

Definition fakeSchemas (nsMin nsMax propMin propMax : option Z)
    : gmap string NamespaceEntry :=
  {[ fakeNs :=
       {| namespace_bound :=
            match nsMin, nsMax with
            | None, None => None
            | _, _ => Some (mkBound nsMin nsMax)
            end;
          members :=
            [ {| member_name := fakeProp;
                 member_bound :=
                   match propMin, propMax with
                   | None, None => None
                   | _, _ => Some (mkBound propMin propMax)
                   end |} ] |} ]}.

End Oracle.

(* ===================================================================== *)
(** * The lint rule for unsupported APIs *)
(* ===================================================================== *)

Module Rule.

(** Syntax nodes, as far as the visitor looks into them. *)
Inductive node : Type :=
  | Identifier (name : string)
  | Literal (raw : string)
  | ThisExpression
  | CallExpression (callee : node) (arguments : list node)
  | MemberExpression (object property : node) (computed : bool).

(** [n.object] and [n.name]; [None] is [undefined]. *)
Definition object_of (n : node) : option node :=
  match n with
  | MemberExpression object _ _ => Some object
  | _ => None
  end.

Definition property_of (n : node) : option node :=
  match n with
  | MemberExpression _ property _ => Some property
  | _ => None
  end.

Definition name_of (n : node) : option string :=
  match n with
  | Identifier name => Some name
  | _ => None
  end.

(** A value in a template literal. *)
Definition interpolate (s : option string) : string := default "undefined" s.

Record report : Type := mkReport {
  report_node : node;
  report_message : string;
  report_api : string
}.

Section Visitor.
(** The type of [context.settings.addonMetadata]. *)
Variable Metadata : Type.
(** The imports of the rule. *)
Variable UNSUPPORTED_API_messageFormat : string.
Variable hasBrowserApi : option string -> option string -> Metadata -> bool.
Variable isBrowserNamespace : option string -> bool.

(** The [MemberExpression] visitor of [rule.create(context)]; the result
    lists the calls of [context.report].  The linter calls the visitor
    on member expressions only. *)
Definition MemberExpression_visitor (addonMetadata : Metadata) (n : node) : list report :=
  match n with
  | MemberExpression object property computed =>
      match negb computed, object_of object with
      | true, Some base =>
          if isBrowserNamespace (name_of base) then
            let namespace := property_of object ≫= name_of in
            let property := name_of property in
            let api := interpolate namespace +:+ "." +:+ interpolate property in
            if negb (hasBrowserApi namespace property addonMetadata)
            then [mkReport n UNSUPPORTED_API_messageFormat api]
            else []
          else []
      | _, _ => []
      end
  | _ => []
  end.
End Visitor.

End Rule.

(* ===================================================================== *)
(** * Sample data for the closed instances below *)
(* ===================================================================== *)

Module Samples.
Import Facade.

(** Error objects as the engine creates them. *)
Definition merge_error : Diagnostic :=
  {| keyword := "$merge";
     message := "should pass $merge keyword validation";
     dataPath := Some "/theme" |}.

Definition required_error : Diagnostic :=
  {| keyword := "required";
     message := "should have required property 'manifest_version'";
     dataPath := Some "/manifest_version" |}.

Definition type_error : Diagnostic :=
  {| keyword := "type"; message := "should be object"; dataPath := Some "/" |}.

(** An engine for the closed instances: an object with a manifest version
    is valid, an object without one fails with a patch artifact next to
    the genuine error, and anything else is of the wrong type. *)
Definition sample_engine (c : compiled) (doc : value) : result (bool * errors_slot) :=
  match doc with
  | VObj fs =>
      match assoc "manifest_version" fs with
      | Some _ => Ok (true, ENull)
      | None => Ok (false, EList [merge_error; required_error; unsupported_max 2])
      end
  | _ => Ok (false, EList [type_error])
  end.

(** An engine whose manifest validators are the one-property validator of
    the facade, for the property [action] with [min_manifest_version: 3]. *)
Definition action_engine (c : compiled) (doc : value) : result (bool * errors_slot) :=
  min_version_validator no_coercion "action" 3 doc.

Definition versionless_manifest : value := VObj [("action", VObj [])].
Definition manifest_v2 : value :=
  VObj [("manifest_version", VNum 2); ("browser_action", VObj [])].
Definition manifest_v3 : value :=
  VObj [("manifest_version", VNum 3); ("browser_action", VObj [])].

Definition sample_registry : gmap string string :=
  {[ "/theme/images/headerURL" := "MANIFEST_THEME_LWT_ALIAS" ]}.

(** Tables in the shape of those of the [const] module. *)
Definition sample_temporary : gset string := {[ "identity.getRedirectURL" ]}.

Definition sample_deprecated : gmap string (option Oracle.VersionBound) :=
  {[ "runtime.getBackgroundPage" := Some (Oracle.mkBound (Some 3) None) ]}.

Definition sample_constants : Oracle.ApiConstants :=
  Oracle.mkConstants sample_temporary sample_deprecated.

(** A table in which the deprecated member is listed, without bounds. *)
Definition runtime_table : gmap string Oracle.NamespaceEntry :=
  {[ "runtime" :=
       Oracle.mkNamespace None [Oracle.mkMember "getBackgroundPage" None] ]}.

(** The imports of the lint rule, for the closed instances: the oracle
    over a table whose namespace needs manifest version 3. *)
Definition sample_isBrowserNamespace (name : option string) : bool :=
  bool_decide (name = Some "browser" \/ name = Some "chrome").

Definition sample_hasBrowserApi (namespace property : option string)
    (addonMetadata : option Oracle.ManifestMetadata) : bool :=
  match namespace, property with
  | Some ns, Some prop =>
      Oracle.hasBrowserApi sample_constants ns prop addonMetadata
        (Oracle.fakeSchemas (Some 3) None None None)
  | _, _ => false
  end.

Definition fake_access : Rule.node :=
  Rule.MemberExpression
    (Rule.MemberExpression (Rule.Identifier "browser")
                           (Rule.Identifier Oracle.fakeNs) false)
    (Rule.Identifier Oracle.fakeProp) false.

End Samples.

(* ===================================================================== *)
(** * Calls of the engine and of the entry points, for the further
      properties *)
(* ===================================================================== *)

Module Calls.
Import Facade.

(** Whether two entry points assign to the same [errors] property:
    [validateAddon] is one function whatever its options are. *)
Definition same_property (f g : entry) : bool :=
  match f, g with
  | EAddon _, EAddon _ => true
  | EStaticTheme, EStaticTheme => true
  | ELangPack, ELangPack => true
  | EDictionary, EDictionary => true
  | ELocaleMessages, ELocaleMessages => true
  | _, _ => false
  end.

(** The keyword call made for the property [q] of the object under the
    root property [p] of [doc]: the parent of the instance is that inner
    object, the root data is [doc]. *)
Definition nested_property_call (doc : value) (p q : string) : keyword_call :=
  let parent := default VUndefined (assoc p match doc with VObj fs => fs | _ => [] end) in
  {| call_data := default VUndefined (assoc q match parent with VObj fs => fs | _ => [] end);
     call_parentSchema := VObj [];
     call_dataPath := "/" +:+ p +:+ "/" +:+ q;
     call_parentData := parent;
     call_parentDataProperty := VStr q;
     call_rootData := doc |}.

(** A version 2 manifest with a nested property. *)
Definition manifest_nested : value :=
  VObj [("manifest_version", VNum 2);
        ("background", VObj [("persistent", VBool true)])].

(** An engine that reports nothing but a patch artifact. *)
Definition artifact_engine (c : compiled) (doc : value) : result (bool * errors_slot) :=
  Ok (false, EList [Samples.merge_error]).

(** A registry with one more path than the sample registry. *)
Definition larger_registry : gmap string string :=
  <[ "/applications" := "APPLICATIONS_DEPRECATED" ]> Samples.sample_registry.

(** [browser[fakeAPINamespace].fakeMethod] and
    [browser.runtime.fakeAPINamespace.fakeMethod]. *)
Definition bracket_access : Rule.node :=
  Rule.MemberExpression
    (Rule.MemberExpression (Rule.Identifier "browser")
                           (Rule.Identifier Oracle.fakeNs) true)
    (Rule.Identifier Oracle.fakeProp) false.

Definition deep_access : Rule.node :=
  Rule.MemberExpression
    (Rule.MemberExpression
       (Rule.MemberExpression (Rule.Identifier "browser")
                              (Rule.Identifier "runtime") false)
       (Rule.Identifier Oracle.fakeNs) false)
    (Rule.Identifier Oracle.fakeProp) false.

End Calls.

(* ===================================================================== *)
(** * Properties of the schema keywords *)
(* ===================================================================== *)

Module ValidatorFacts.
Import Samples.

Lemma num_ge_number coerce m v : num_ge coerce m (VNum v) = Z.leb v m.
Proof. reflexivity. Qed.

Lemma num_le_number coerce m v : num_le coerce m (VNum v) = Z.leb m v.
Proof. reflexivity. Qed.

Lemma num_ge_undefined coerce m : num_ge coerce m VUndefined = false.
Proof. reflexivity. Qed.

Lemma identifier_unbound v :
  identifier validator_scope "MANIFEST_VERSION_DEFAULT" v
  = Throw (ReferenceError "MANIFEST_VERSION_DEFAULT").
Proof. reflexivity. Qed.

Lemma identifier_bound scope v :
  identifier ("MANIFEST_VERSION_DEFAULT" :: scope) "MANIFEST_VERSION_DEFAULT" v = Ok v.
Proof.
  unfold identifier. rewrite bool_decide_eq_true_2; [done | apply list_elem_of_here].
Qed.

(** With a truthy numeric version in the root document the default is
    never evaluated: the check passes iff [minMV <= v], and a failure
    leaves exactly the one [unsupported] error. *)
Lemma validateMinMV_number coerce scope minMV propValue schema dataPath
    parentData parentDataProperty fs v errors :
  assoc "manifest_version" fs = Some (VNum v) -> v <> 0 ->
  validateMinMV_in coerce scope minMV propValue schema dataPath parentData
                   parentDataProperty (VObj fs) errors
  = Ok (Z.leb minMV v,
        if Z.leb minMV v then errors else EList [unsupported_min minMV]).
Proof.
  intros Hfs Hv. unfold validateMinMV_in. cbn. rewrite Hfs. cbn.
  destruct (Z.eqb_spec v 0) as [->|_]; [done|]. cbn.
  unfold num_le. cbn. by destruct (Z.leb minMV v).
Qed.

(** Had the module imported the constant, a root document without the
    field would be checked against the default version 2. *)
Lemma validateMinMV_in_bound_default coerce scope minMV propValue schema dataPath
    parentData parentDataProperty fs errors :
  assoc "manifest_version" fs = None ->
  validateMinMV_in coerce ("MANIFEST_VERSION_DEFAULT" :: scope) minMV propValue
                   schema dataPath parentData parentDataProperty (VObj fs) errors
  = Ok (Z.leb minMV 2,
        if Z.leb minMV 2 then errors else EList [unsupported_min minMV]).
Proof.
  intros Hfs. unfold validateMinMV_in. cbn. rewrite Hfs. cbn.
  rewrite identifier_bound. cbn. unfold num_le, MANIFEST_VERSION_DEFAULT. cbn.
  by destruct (Z.leb minMV 2).
Qed.

(** The same substitution happens for a version that is present but
    falsy, such as 0. *)
Lemma validateMinMV_in_zero_version coerce scope minMV propValue schema dataPath
    parentData parentDataProperty fs errors :
  assoc "manifest_version" fs = Some (VNum 0) ->
  validateMinMV_in coerce ("MANIFEST_VERSION_DEFAULT" :: scope) minMV propValue
                   schema dataPath parentData parentDataProperty (VObj fs) errors
  = Ok (Z.leb minMV 2,
        if Z.leb minMV 2 then errors else EList [unsupported_min minMV]).
Proof.
  intros Hfs. unfold validateMinMV_in. cbn. rewrite Hfs. cbn.
  rewrite identifier_bound. cbn. unfold num_le, MANIFEST_VERSION_DEFAULT. cbn.
  by destruct (Z.leb minMV 2).
Qed.

(** [validateMinMV] on every input: it returns exactly when
    [rootData && rootData.manifest_version] is truthy. *)
Lemma validateMinMV_cases coerce minMV propValue schema dataPath parentData
    parentDataProperty rootData errors :
  let conj := if truthy rootData
              then match rootData with
                   | VObj fs => default VUndefined (assoc "manifest_version" fs)
                   | _ => VUndefined
                   end
              else rootData in
  validateMinMV coerce minMV propValue schema dataPath parentData
                parentDataProperty rootData errors
  = if truthy conj
    then Ok (num_le coerce minMV conj,
             if num_le coerce minMV conj then errors
             else EList [unsupported_min minMV])
    else Throw (ReferenceError "MANIFEST_VERSION_DEFAULT").
Proof.
  unfold validateMinMV, validateMinMV_in.
  destruct rootData as [| |b|n|str|items|fs]; try reflexivity.
  - by destruct b.
  - cbn. destruct (Z.eqb n 0) eqn:E; cbn; rewrite ?E; reflexivity.
  - cbn. destruct (String.eqb str EmptyString) eqn:E; cbn; rewrite ?E; reflexivity.
  - cbn. destruct (truthy (default VUndefined (assoc "manifest_version" fs))); cbn.
    + by destruct (num_le coerce minMV _).
    + reflexivity.
Qed.

(** C3.  [validateMinMV] on a root document without [manifest_version]:
    the right operand of [||] is the identifier
    [MANIFEST_VERSION_DEFAULT], which [validator.js] neither imports nor
    declares, so the call ends in a [ReferenceError] instead of comparing
    the bound with the default version 2 and emitting an [unsupported]
    diagnostic. *)
Theorem validateMinMV_missing_version_throws coerce minMV propValue schema
    dataPath parentData parentDataProperty fs errors :
  assoc "manifest_version" fs = None ->
  validateMinMV coerce minMV propValue schema dataPath parentData
                parentDataProperty (VObj fs) errors
  = Throw (ReferenceError "MANIFEST_VERSION_DEFAULT").
Proof.
  intros Hfs. unfold validateMinMV, validateMinMV_in. cbn. rewrite Hfs. cbn.
  by rewrite identifier_unbound.
Qed.

Lemma validateMinMV_missing_version_throws_witness :
  assoc "manifest_version" [("action", VObj [])] = None /\
  validateMinMV no_coercion 3 (VObj []) (VObj []) "/action" versionless_manifest
                (VStr "action") versionless_manifest EUndefined
  = Throw (ReferenceError "MANIFEST_VERSION_DEFAULT").
Proof.
  split; [reflexivity|].
  apply (validateMinMV_missing_version_throws no_coercion 3 (VObj []) (VObj [])
           "/action" versionless_manifest (VStr "action") [("action", VObj [])]
           EUndefined).
  reflexivity.
Defined.

(** With a numeric version under the fifth argument the check passes iff
    [v <= maxMV], and a failure leaves exactly the one [unsupported]
    error. *)
Lemma validateMaxMV_number coerce maxMV propValue schema dataPath fs v errors :
  assoc "manifest_version" fs = Some (VNum v) ->
  validateMaxMV coerce maxMV propValue schema dataPath (VObj fs) errors
  = Ok (Z.leb v maxMV,
        if Z.leb v maxMV then errors else EList [unsupported_max maxMV]).
Proof.
  intros Hfs. unfold validateMaxMV. cbn. rewrite Hfs. cbn.
  unfold num_ge. cbn. by destruct (Z.leb v maxMV).
Qed.

(** A version 3 manifest with a property annotated
    [max_manifest_version: 2] fails with [unsupported]; the same manifest
    with version 2 passes. *)
Lemma validateMaxMV_end_to_end errors :
  call_max no_coercion 2 (root_property_call manifest_v3 "browser_action") errors
  = Ok (false, EList [unsupported_max 2]) /\
  call_max no_coercion 2 (root_property_call manifest_v2 "browser_action") errors
  = Ok (true, errors).
Proof. split; reflexivity. Qed.

(** The fifth positional argument is the parent of the instance: for a
    nested property the version is looked up in the wrong object. *)
Lemma call_max_reads_parent coerce maxMV c errors fs :
  call_parentData c = VObj fs -> assoc "manifest_version" fs = None ->
  call_max coerce maxMV c errors = Ok (false, EList [unsupported_max maxMV]).
Proof.
  intros Hp Hfs. unfold call_max, validateMaxMV. rewrite Hp. cbn. by rewrite Hfs.
Qed.

(** C4.  [validateMaxMV] on a root document without [manifest_version]:
    no default is substituted, the bound is compared with [undefined],
    the comparison is false for every bound, and the check fails with an
    [unsupported] diagnostic rather than passing iff [2 <= maxMV]. *)
Theorem validateMaxMV_missing_version_fails coerce maxMV propValue schema
    dataPath fs errors :
  assoc "manifest_version" fs = None ->
  validateMaxMV coerce maxMV propValue schema dataPath (VObj fs) errors
  = Ok (false, EList [unsupported_max maxMV]).
Proof.
  intros Hfs. unfold validateMaxMV. cbn. by rewrite Hfs.
Qed.

Lemma validateMaxMV_missing_version_fails_witness :
  assoc "manifest_version" [("browser_action", VObj [])] = None /\
  Z.leb MANIFEST_VERSION_DEFAULT 2 = true /\
  validateMaxMV no_coercion 2 (VObj []) (VObj []) "/browser_action"
                (VObj [("browser_action", VObj [])]) EUndefined
  = Ok (false, EList [unsupported_max 2]).
Proof.
  split; [reflexivity|]. split; [reflexivity|].
  apply (validateMaxMV_missing_version_fails no_coercion 2 (VObj []) (VObj [])
           "/browser_action" [("browser_action", VObj [])] EUndefined).
  reflexivity.
Defined.

(** C7.  [validateDeprecated] passes and leaves its [errors] alone when
    the data path is no key of the registry; when the path is a key it
    fails and its [errors] hold exactly one object, with the keyword
    [deprecated] and the message of the schema annotation. *)
Theorem validateDeprecated_registry (registry : gmap string string)
    (text : string) (propValue schema : value) (dataPath : string)
    (errors : errors_slot) :
  (registry !! dataPath = None ->
   validateDeprecated registry text propValue schema dataPath errors
   = (true, errors)) /\
  (is_Some (registry !! dataPath) ->
   exists d,
     validateDeprecated registry text propValue schema dataPath errors
     = (false, EList [d]) /\
     keyword d = "deprecated" /\ message d = text).
Proof.
  unfold validateDeprecated. split.
  - intros Hnone. rewrite bool_decide_eq_false_2; [done|].
    rewrite Hnone. by intros [? ?].
  - intros Hsome. rewrite bool_decide_eq_true_2 by done. cbn.
    by exists (deprecated_error text).
Qed.

Lemma validateDeprecated_registry_witness :
  validateDeprecated sample_registry "is deprecated" (VStr "x.png") (VObj [])
                     "/theme/images/theme_frame" (EList [type_error])
  = (true, EList [type_error]) /\
  exists d,
    validateDeprecated sample_registry "is deprecated" (VStr "x.png") (VObj [])
                       "/theme/images/headerURL" (EList [type_error])
    = (false, EList [d]) /\
    keyword d = "deprecated" /\ message d = "is deprecated".
Proof.
  split.
  - apply (proj1 (validateDeprecated_registry sample_registry "is deprecated"
                    (VStr "x.png") (VObj []) "/theme/images/theme_frame"
                    (EList [type_error]))).
    vm_compute. reflexivity.
  - apply (proj2 (validateDeprecated_registry sample_registry "is deprecated"
                    (VStr "x.png") (VObj []) "/theme/images/headerURL"
                    (EList [type_error]))).
    exists "MANIFEST_THEME_LWT_ALIAS". vm_compute. reflexivity.
Defined.

End ValidatorFacts.

(* ===================================================================== *)
(** * Properties of the validation facade *)
(* ===================================================================== *)

Module FacadeFacts.
Import Facade Samples.

Lemma filterErrors_list l :
  filterErrors (EList l) = EList (filter (fun error => keyword error ≠ "$merge") l).
Proof. reflexivity. Qed.

Lemma filterErrors_falsy errors :
  slot_truthy errors = false -> filterErrors errors = errors.
Proof. by destruct errors. Qed.

Lemma slot_list_filterErrors errors :
  slot_list (filterErrors errors)
  = filter (fun error => keyword error ≠ "$merge") (slot_list errors).
Proof. by destruct errors. Qed.

Lemma errors_of_set f e st : errors_of f (set_errors_of f e st) = e.
Proof. by destruct f. Qed.

Lemma set_errors_of_twice f e0 e st :
  set_errors_of f e (set_errors_of f e0 st) = set_errors_of f e st.
Proof. by destruct f. Qed.

Section WithEngine.
Variable engine : compiled -> value -> result (bool * errors_slot).

(** An entry point is its compiled validator followed by one
    assignment. *)
Lemma run_returns f c doc st isValid errors :
  selects f = Ok c -> engine c doc = Ok (isValid, errors) ->
  run engine f doc st = Ok (isValid, set_errors_of f (filterErrors errors) st).
Proof.
  destruct f as [options| | | |]; cbn; intros Hc He.
  - unfold validateAddon.
    destruct (get _ "enableManifestVersion3") as [flag|]; cbn in *; [|done].
    injection Hc as <-. by rewrite He.
  - injection Hc as <-. unfold validateStaticTheme. by rewrite He.
  - injection Hc as <-. unfold validateLangPack. by rewrite He.
  - injection Hc as <-. unfold validateDictionary. by rewrite He.
  - injection Hc as <-. unfold validateLocaleMessages. by rewrite He.
Qed.

(** There is no handler between the compiled validator and the caller. *)
Lemma run_throws f c doc st e :
  selects f = Ok c -> engine c doc = Throw e -> run engine f doc st = Throw e.
Proof.
  destruct f as [options| | | |]; cbn; intros Hc He.
  - unfold validateAddon.
    destruct (get _ "enableManifestVersion3") as [flag|]; cbn in *; [|done].
    injection Hc as <-. by rewrite He.
  - injection Hc as <-. unfold validateStaticTheme. by rewrite He.
  - injection Hc as <-. unfold validateLangPack. by rewrite He.
  - injection Hc as <-. unfold validateDictionary. by rewrite He.
  - injection Hc as <-. unfold validateLocaleMessages. by rewrite He.
Qed.

(** When the engine reports at least one genuine error, the exposed
    list is not empty. *)
Lemma exposed_nonempty errors d :
  d ∈ slot_list errors -> keyword d ≠ "$merge" ->
  slot_list (filterErrors errors) ≠ [].
Proof.
  intros Hd Hk Hnil. rewrite slot_list_filterErrors in Hnil.
  assert (d ∈ filter (fun error => keyword error ≠ "$merge") (slot_list errors)) as Hin
    by (apply list_elem_of_filter; done).
  rewrite Hnil in Hin. by apply not_elem_of_nil in Hin.
Qed.
End WithEngine.

(** C8.  For each of the five entry points: when the compiled validator
    returns with its [errors], the entry point returns the same verdict
    and the list it exposes consists of exactly the engine's error
    objects whose keyword is not [$merge], in the engine's order. *)
Theorem exposed_errors_are_filtered
    (engine : compiled -> value -> result (bool * errors_slot))
    (f : entry) (c : compiled) (doc : value) (st : exported)
    (isValid : bool) (errors : errors_slot) :
  selects f = Ok c -> engine c doc = Ok (isValid, errors) ->
  exists st',
    run engine f doc st = Ok (isValid, st') /\
    slot_list (errors_of f st')
    = filter (fun d => keyword d ≠ "$merge") (slot_list errors) /\
    (forall d, d ∈ slot_list (errors_of f st')
               <-> d ∈ slot_list errors /\ keyword d ≠ "$merge") /\
    sublist (slot_list (errors_of f st')) (slot_list errors).
Proof.
  intros Hc He. exists (set_errors_of f (filterErrors errors) st).
  split; [by apply run_returns with c|].
  rewrite errors_of_set, slot_list_filterErrors.
  split; [done|]. split.
  - intros d. rewrite list_elem_of_filter. tauto.
  - apply sublist_filter.
Qed.

Lemma exposed_errors_are_filtered_witness :
  exists st',
    run sample_engine EStaticTheme versionless_manifest initial = Ok (false, st') /\
    slot_list (errors_of EStaticTheme st')
    = filter (fun d => keyword d ≠ "$merge")
             [merge_error; required_error; unsupported_max 2] /\
    (forall d, d ∈ slot_list (errors_of EStaticTheme st')
               <-> d ∈ [merge_error; required_error; unsupported_max 2]
                   /\ keyword d ≠ "$merge") /\
    sublist (slot_list (errors_of EStaticTheme st'))
            [merge_error; required_error; unsupported_max 2].
Proof.
  apply (exposed_errors_are_filtered sample_engine EStaticTheme _validateStaticTheme
           versionless_manifest initial false
           (EList [merge_error; required_error; unsupported_max 2]));
    reflexivity.
Defined.

(** C10.  Each entry point assigns the filtered error list of the
    current call to its own [errors] property.  After the call the
    property holds the engine's array without its [$merge] entries, every
    other entry kept, in order; a [null] or [undefined] engine value is
    stored as it is and not as an empty array; and the outcome does not
    depend on what the property held before, so what an earlier call
    stored is gone. *)
Theorem errors_property_overwritten
    (engine : compiled -> value -> result (bool * errors_slot))
    (f : entry) (c : compiled) (doc : value) (st : exported)
    (isValid : bool) (errors : errors_slot) :
  selects f = Ok c -> engine c doc = Ok (isValid, errors) ->
  exists st',
    run engine f doc st = Ok (isValid, st') /\
    errors_of f st' = filterErrors errors /\
    (forall l, errors = EList l ->
       errors_of f st' = EList (filter (fun d => keyword d ≠ "$merge") l) /\
       (forall d, d ∈ slot_list (errors_of f st')
                  <-> d ∈ l /\ keyword d ≠ "$merge")) /\
    (slot_truthy errors = false ->
     errors_of f st' = errors /\ errors_of f st' <> EList []) /\
    (forall earlier,
       run engine f doc (set_errors_of f earlier st) = Ok (isValid, st')).
Proof.
  intros Hc He. exists (set_errors_of f (filterErrors errors) st).
  split; [by apply run_returns with c|].
  rewrite errors_of_set. split; [done|]. split; [|split].
  - intros l ->. split; [reflexivity|].
    intros d. cbn. rewrite list_elem_of_filter. tauto.
  - intros Hfalsy. rewrite filterErrors_falsy by done.
    split; [done|]. by destruct errors.
  - intros earlier. rewrite (run_returns engine f c doc _ isValid errors Hc He).
    by rewrite set_errors_of_twice.
Qed.

Lemma errors_property_overwritten_witness :
  (exists st',
     run sample_engine EStaticTheme versionless_manifest
         (set_errors_of EStaticTheme (EList [type_error]) initial) = Ok (false, st') /\
     errors_of EStaticTheme st' = EList [required_error; unsupported_max 2]) /\
  (exists st',
     run sample_engine (EAddon VUndefined) manifest_v2
         (set_errors_of (EAddon VUndefined) (EList [type_error]) initial)
     = Ok (true, st') /\
     errors_of (EAddon VUndefined) st' = ENull).
Proof.
  split.
  - destruct (errors_property_overwritten sample_engine EStaticTheme
                _validateStaticTheme versionless_manifest initial false
                (EList [merge_error; required_error; unsupported_max 2])
                eq_refl eq_refl)
      as (st' & _ & _ & Hlist & _ & Hearlier).
    exists st'. split; [apply Hearlier|].
    exact (proj1 (Hlist [merge_error; required_error; unsupported_max 2] eq_refl)).
  - destruct (errors_property_overwritten sample_engine (EAddon VUndefined)
                _validateAddon manifest_v2 initial true ENull eq_refl eq_refl)
      as (st' & _ & _ & _ & Hnull & Hearlier).
    exists st'. split; [apply Hearlier|].
    exact (proj1 (Hnull eq_refl)).
Defined.

(** A second call replaces what the first one stored. *)
Example second_call_overwrites :
  exists st1 st2,
    validateStaticTheme sample_engine versionless_manifest initial = Ok (false, st1) /\
    validateStaticTheme_errors st1 = EList [required_error; unsupported_max 2] /\
    validateStaticTheme sample_engine manifest_v2 st1 = Ok (true, st2) /\
    validateStaticTheme_errors st2 = ENull.
Proof. by eexists _, _. Qed.

(** The filter alone does not keep a failing call from exposing an empty
    list: that rests on the engine reporting a genuine error. *)
Example only_artifacts_filter_to_nothing :
  filterErrors (EList [merge_error]) = EList [].
Proof. reflexivity. Qed.

(** C5.  [validateAddon] on a manifest without [manifest_version] that
    sets a property annotated with [min_manifest_version]: the keyword
    function throws a [ReferenceError], nothing between it and the caller
    catches it, and the entry point throws instead of returning [false]
    with diagnostics. *)
Theorem validateAddon_throws_on_versionless_manifest :
  validateAddon action_engine versionless_manifest VUndefined initial
  = Throw (ReferenceError "MANIFEST_VERSION_DEFAULT").
Proof. reflexivity. Qed.

End FacadeFacts.

(* ===================================================================== *)
(** * Properties of the compatibility oracle *)
(* ===================================================================== *)

Module OracleFacts.
Import Oracle Samples.

Lemma intersectMax_both a b : intersectMax (Some a) (Some b) = Some (Z.min a b).
Proof. reflexivity. Qed.

Lemma unionMin_both a b : unionMin (Some a) (Some b) = Z.max a b.
Proof. reflexivity. Qed.

Lemma intersectMax_comm a b : intersectMax a b = intersectMax b a.
Proof. destruct a, b; cbn; try done. by rewrite Z.min_comm. Qed.

Lemma unionMin_comm a b : unionMin a b = unionMin b a.
Proof. destruct a, b; cbn; try done. by rewrite Z.max_comm. Qed.

Section Listed.
Variable table : gmap string NamespaceEntry.
Variables namespace member : string.
Variable entry : NamespaceEntry.
Hypothesis Hentry : table !! namespace = Some entry.

Lemma namespaceMax_listed :
  namespaceMax table namespace = namespace_bound entry ≫= bound_max.
Proof. unfold namespaceMax. by rewrite Hentry. Qed.

Lemma namespaceMin_listed :
  namespaceMin table namespace = namespace_bound entry ≫= bound_min.
Proof. unfold namespaceMin. by rewrite Hentry. Qed.

Lemma memberMax_listed :
  memberMax table namespace member
  = (findMember member entry ≫= member_bound) ≫= bound_max.
Proof. unfold memberMax. rewrite Hentry. cbn. by destruct (findMember member entry). Qed.

Lemma memberMin_listed :
  memberMin table namespace member
  = (findMember member entry ≫= member_bound) ≫= bound_min.
Proof. unfold memberMin. rewrite Hentry. cbn. by destruct (findMember member entry). Qed.
End Listed.

(** The assertions of the test suite on the synthetic tables. *)
Example test_hasBrowserApi_namespace_min :
  hasBrowserApi no_constants fakeNs fakeProp fakeMetadata (fakeSchemas (Some 3) None None None) = false /\
  hasBrowserApi no_constants fakeNs fakeProp fakeMetadataV3 (fakeSchemas (Some 3) None None None) = true.
Proof. split; reflexivity. Qed.

Example test_hasBrowserApi_member_min :
  hasBrowserApi no_constants fakeNs fakeProp fakeMetadata (fakeSchemas None None (Some 3) None) = false /\
  hasBrowserApi no_constants fakeNs fakeProp fakeMetadataV3 (fakeSchemas None None (Some 3) None) = true.
Proof. split; reflexivity. Qed.

Example test_hasBrowserApi_namespace_max :
  hasBrowserApi no_constants fakeNs fakeProp fakeMetadataV3 (fakeSchemas None (Some 2) None None) = false /\
  hasBrowserApi no_constants fakeNs fakeProp fakeMetadata (fakeSchemas None (Some 2) None None) = true.
Proof. split; reflexivity. Qed.

Example test_hasBrowserApi_member_max :
  hasBrowserApi no_constants fakeNs fakeProp fakeMetadataV3 (fakeSchemas None None None (Some 2)) = false /\
  hasBrowserApi no_constants fakeNs fakeProp fakeMetadata (fakeSchemas None None None (Some 2)) = true.
Proof. split; reflexivity. Qed.

Example test_hasBrowserApi_unknown :
  hasBrowserApi sample_constants "foo" "notAnApi" None runtime_table = false.
Proof. reflexivity. Qed.

Example test_isTemporaryApi :
  isTemporaryApi sample_constants "identity" "getRedirectURL" = true /\
  isTemporaryApi sample_constants "foo" "notAnApi" = false.
Proof. split; reflexivity. Qed.

Example test_isDeprecatedApi :
  isDeprecatedApi sample_constants "runtime" "getBackgroundPage" fakeMetadataV3 = true /\
  isDeprecatedApi sample_constants "runtime" "getBackgroundPage" fakeMetadata = false.
Proof. split; reflexivity. Qed.

Example test_getMaxManifestVersion :
  getMaxManifestVersion fakeNs fakeProp fakeMetadata (fakeSchemas None (Some 2) None None) = Some 2 /\
  getMaxManifestVersion fakeNs fakeProp fakeMetadata (fakeSchemas None None None (Some 2)) = Some 2 /\
  getMaxManifestVersion fakeNs fakeProp fakeMetadata (fakeSchemas None (Some 3) None (Some 2)) = Some 2 /\
  getMaxManifestVersion fakeNs fakeProp fakeMetadata (fakeSchemas None (Some 2) None (Some 3)) = Some 2.
Proof. repeat split; reflexivity. Qed.

Example test_getMinManifestVersion :
  getMinManifestVersion fakeNs fakeProp fakeMetadata (fakeSchemas (Some 3) None None None) = 3 /\
  getMinManifestVersion fakeNs fakeProp fakeMetadata (fakeSchemas None None (Some 3) None) = 3 /\
  getMinManifestVersion fakeNs fakeProp fakeMetadata (fakeSchemas (Some 2) None (Some 3) None) = 3 /\
  getMinManifestVersion fakeNs fakeProp fakeMetadata (fakeSchemas (Some 3) None (Some 2) None) = 3.
Proof. repeat split; reflexivity. Qed.

(** C2.  [getManifestVersion] of an absent metadata argument is the
    default 2; of a metadata object without the field it is [undefined];
    of a metadata object with version [v] it is [v].  The result for the
    empty object differs from the other two, and the result for a
    populated object differs from the default exactly when [v] is not 2
    (as for the 2, [undefined], 3 of the test suite). *)
Theorem getManifestVersion_three_states :
  getManifestVersion None = Some 2 /\
  getManifestVersion (Some (mkMetadata None)) = None /\
  (forall v, getManifestVersion (Some (mkMetadata (Some v))) = Some v) /\
  getManifestVersion None <> getManifestVersion (Some (mkMetadata None)) /\
  (forall v, getManifestVersion (Some (mkMetadata None))
             <> getManifestVersion (Some (mkMetadata (Some v)))) /\
  (forall v, getManifestVersion None <> getManifestVersion (Some (mkMetadata (Some v)))
             <-> v <> 2) /\
  getManifestVersion None <> getManifestVersion fakeMetadataV3.
Proof.
  repeat split; cbn; try done; congruence.
Qed.

(** C6.  For a namespace of the table, [getMaxManifestVersion] is the
    smaller of the maximum of the namespace and that of the member when
    both are declared, and the declared one when only one is;
    [getMinManifestVersion] is the larger of the two minima, and the
    declared one when only one is; neither result depends on the metadata
    argument. *)
Theorem manifest_version_bounds (table : gmap string NamespaceEntry)
    (namespace member : string) (addonMetadata : option ManifestMetadata)
    (entry : NamespaceEntry) :
  table !! namespace = Some entry ->
  let propBound := findMember member entry ≫= member_bound in
  let nsMax := namespace_bound entry ≫= bound_max in
  let propMax := propBound ≫= bound_max in
  let nsMin := namespace_bound entry ≫= bound_min in
  let propMin := propBound ≫= bound_min in
  (forall a b, nsMax = Some a -> propMax = Some b ->
     getMaxManifestVersion namespace member addonMetadata table = Some (Z.min a b)) /\
  (forall a, nsMax = Some a -> propMax = None ->
     getMaxManifestVersion namespace member addonMetadata table = Some a) /\
  (forall b, nsMax = None -> propMax = Some b ->
     getMaxManifestVersion namespace member addonMetadata table = Some b) /\
  (forall a b, nsMin = Some a -> propMin = Some b ->
     getMinManifestVersion namespace member addonMetadata table = Z.max a b) /\
  (forall a, nsMin = Some a -> propMin = None ->
     getMinManifestVersion namespace member addonMetadata table = a) /\
  (forall b, nsMin = None -> propMin = Some b ->
     getMinManifestVersion namespace member addonMetadata table = b) /\
  (forall other,
     getMaxManifestVersion namespace member other table
     = getMaxManifestVersion namespace member addonMetadata table /\
     getMinManifestVersion namespace member other table
     = getMinManifestVersion namespace member addonMetadata table).
Proof.
  intros Hentry propBound nsMax propMax nsMin propMin.
  unfold getMaxManifestVersion, getMinManifestVersion.
  rewrite (namespaceMax_listed _ _ _ Hentry), (namespaceMin_listed _ _ _ Hentry),
          (memberMax_listed _ _ member _ Hentry),
          (memberMin_listed _ _ member _ Hentry).
  fold propBound. fold nsMax propMax nsMin propMin.
  repeat split; intros; repeat match goal with H : _ = _ |- _ => rewrite H end;
    reflexivity.
Qed.

Lemma manifest_version_bounds_witness :
  getMaxManifestVersion fakeNs fakeProp fakeMetadata
    (fakeSchemas (Some 2) (Some 3) (Some 3) (Some 2)) = Some 2 /\
  getMinManifestVersion fakeNs fakeProp fakeMetadata
    (fakeSchemas (Some 2) (Some 3) (Some 3) (Some 2)) = 3.
Proof.
  pose proof (manifest_version_bounds
                (fakeSchemas (Some 2) (Some 3) (Some 3) (Some 2))
                fakeNs fakeProp fakeMetadata
                (mkNamespace (Some (mkBound (Some 2) (Some 3)))
                             [mkMember fakeProp (Some (mkBound (Some 3) (Some 2)))])
                eq_refl) as H.
  cbv zeta in H. destruct H as (Hmax & _ & _ & Hmin & _).
  split.
  - exact (Hmax 3 2 eq_refl eq_refl).
  - exact (Hmin 2 3 eq_refl eq_refl).
Defined.

(** C1.  [hasBrowserApi] is true whenever the qualified name is in the
    temporary set; otherwise it is false when the table has no such
    namespace or the namespace lists no such member; otherwise it is true
    exactly when the effective manifest version (2 for absent metadata,
    the version of the metadata object otherwise, [undefined] never being
    in range) is at least the larger of the declared minima (0 when none
    is declared) and at most the smaller of the declared maxima (no
    ceiling when none is declared).  The deprecated map has no part in
    the resolution: whatever it lists, the result is the same. *)
Theorem hasBrowserApi_resolution (constants : ApiConstants)
    (namespace member : string) (addonMetadata : option ManifestMetadata)
    (table : gmap string NamespaceEntry) :
  (qualified namespace member ∈ TEMPORARY_APIS constants ->
   hasBrowserApi constants namespace member addonMetadata table = true) /\
  (qualified namespace member ∉ TEMPORARY_APIS constants ->
   table !! namespace = None ->
   hasBrowserApi constants namespace member addonMetadata table = false) /\
  (qualified namespace member ∉ TEMPORARY_APIS constants ->
   forall entry, table !! namespace = Some entry ->
   findMember member entry = None ->
   hasBrowserApi constants namespace member addonMetadata table = false) /\
  (qualified namespace member ∉ TEMPORARY_APIS constants ->
   forall entry m, table !! namespace = Some entry ->
   findMember member entry = Some m ->
   let lower :=
     match namespace_bound entry ≫= bound_min, member_bound m ≫= bound_min with
     | Some a, Some b => Z.max a b
     | Some a, None => a
     | None, Some b => b
     | None, None => 0%Z
     end in
   let upper :=
     match namespace_bound entry ≫= bound_max, member_bound m ≫= bound_max with
     | Some a, Some b => Some (Z.min a b)
     | Some a, None => Some a
     | None, Some b => Some b
     | None, None => None
     end in
   hasBrowserApi constants namespace member addonMetadata table = true
   <-> exists version,
         ((addonMetadata = None /\ version = 2%Z) \/
          (exists metadata, addonMetadata = Some metadata /\
                            manifestVersion metadata = Some version)) /\
         (lower <= version)%Z /\
         (forall hi, upper = Some hi -> (version <= hi)%Z)) /\
  (forall deprecated,
     hasBrowserApi (mkConstants (TEMPORARY_APIS constants) deprecated)
                   namespace member addonMetadata table
     = hasBrowserApi constants namespace member addonMetadata table).
Proof.
  unfold hasBrowserApi, isTemporaryApi.
  split; [|split; [|split; [|split]]].
  - intros Hin. by rewrite bool_decide_eq_true_2.
  - intros Hnot Hns. rewrite bool_decide_eq_false_2 by done. by rewrite Hns.
  - intros Hnot entry Hns Hm. rewrite bool_decide_eq_false_2 by done.
    by rewrite Hns, Hm.
  - intros Hnot entry m Hns Hm.
    rewrite bool_decide_eq_false_2 by done. rewrite Hns, Hm.
    unfold effectiveBound, getMinManifestVersion, getMaxManifestVersion.
    rewrite (namespaceMax_listed _ _ _ Hns), (namespaceMin_listed _ _ _ Hns),
            (memberMax_listed _ _ member _ Hns),
            (memberMin_listed _ _ member _ Hns), Hm. cbn.
    unfold inRange, version_ge, version_le, getManifestVersion, unionMin, intersectMax.
    cbn.
    destruct (namespace_bound entry ≫= bound_min) as [nsMin|],
             (member_bound m ≫= bound_min) as [propMin|],
             (namespace_bound entry ≫= bound_max) as [nsMax|],
             (member_bound m ≫= bound_max) as [propMax|],
             addonMetadata as [[[v|]]|];
      cbn; rewrite ?andb_true_iff, ?andb_true_r, ?andb_false_l, ?Z.leb_le;
      (split;
       [ intros Hin; try discriminate Hin;
         first [exists v | exists 2%Z];
         (split; [first [by left | right; by eexists]|]);
         (split; [lia | intros hi Hhi;
                        first [discriminate Hhi | injection Hhi as <-; lia]])
       | intros (version & [[Habs ->]|(metadata & Hmd & Hv)] & Hlo & Hhi);
         try discriminate Habs; try discriminate Hmd;
         try (injection Hmd as <-; cbn in Hv;
              first [discriminate Hv | injection Hv as <-]);
         try (specialize (Hhi _ eq_refl));
         repeat split; try reflexivity; lia ]).
  - done.
Qed.

Lemma hasBrowserApi_resolution_witness :
  hasBrowserApi sample_constants "identity" "getRedirectURL" fakeMetadata ∅ = true /\
  hasBrowserApi sample_constants "foo" "notAnApi" fakeMetadata runtime_table = false /\
  hasBrowserApi sample_constants "runtime" "notAnApi" fakeMetadata runtime_table = false /\
  hasBrowserApi sample_constants fakeNs fakeProp fakeMetadataV3
                (fakeSchemas (Some 2) (Some 3) None (Some 2)) = false /\
  hasBrowserApi sample_constants fakeNs fakeProp fakeMetadata
                (fakeSchemas (Some 2) (Some 3) None (Some 2)) = true /\
  (isDeprecatedApi sample_constants "runtime" "getBackgroundPage" fakeMetadataV3 = true /\
   hasBrowserApi sample_constants "runtime" "getBackgroundPage" fakeMetadataV3
                 runtime_table
   = hasBrowserApi (mkConstants sample_temporary ∅) "runtime" "getBackgroundPage"
                   fakeMetadataV3 runtime_table).
Proof.
  assert (forall ns prop,
            bool_decide (qualified ns prop ∈ sample_temporary) = false ->
            qualified ns prop ∉ TEMPORARY_APIS sample_constants) as Hout.
  { intros ns prop Hb Hin. apply bool_decide_eq_false_1 in Hb. by apply Hb. }
  split; [|split; [|split; [|split; [|split]]]].
  - apply (proj1 (hasBrowserApi_resolution sample_constants "identity"
                    "getRedirectURL" fakeMetadata ∅)).
    apply (bool_decide_eq_true_1 _). reflexivity.
  - apply (proj1 (proj2 (hasBrowserApi_resolution sample_constants "foo"
                           "notAnApi" fakeMetadata runtime_table))).
    + apply Hout. reflexivity.
    + reflexivity.
  - apply (proj1 (proj2 (proj2 (hasBrowserApi_resolution sample_constants "runtime"
                                  "notAnApi" fakeMetadata runtime_table)))
             (Hout "runtime" "notAnApi" eq_refl)
             (mkNamespace None [mkMember "getBackgroundPage" None])).
    + reflexivity.
    + reflexivity.
  - apply not_true_is_false. intros Htrue.
    apply (proj1 (proj1 (proj2 (proj2 (proj2
             (hasBrowserApi_resolution sample_constants fakeNs fakeProp
                fakeMetadataV3 (fakeSchemas (Some 2) (Some 3) None (Some 2))))))
             (Hout fakeNs fakeProp eq_refl)
             (mkNamespace (Some (mkBound (Some 2) (Some 3)))
                          [mkMember fakeProp (Some (mkBound None (Some 2)))])
             (mkMember fakeProp (Some (mkBound None (Some 2)))) eq_refl eq_refl))
      in Htrue.
    destruct Htrue as (v & [[Habs _]|(metadata & Hmd & Hv)] & _ & Hhi);
      [discriminate Habs|].
    injection Hmd as <-. injection Hv as <-.
    specialize (Hhi 2%Z eq_refl). lia.
  - apply (proj2 (proj1 (proj2 (proj2 (proj2
             (hasBrowserApi_resolution sample_constants fakeNs fakeProp
                fakeMetadata (fakeSchemas (Some 2) (Some 3) None (Some 2))))))
             (Hout fakeNs fakeProp eq_refl)
             (mkNamespace (Some (mkBound (Some 2) (Some 3)))
                          [mkMember fakeProp (Some (mkBound None (Some 2)))])
             (mkMember fakeProp (Some (mkBound None (Some 2)))) eq_refl eq_refl)).
    exists 2%Z. split; [right; by exists (mkMetadata (Some 2%Z))|].
    split; [cbn; lia|]. intros hi Hhi. injection Hhi as <-. lia.
  - split; [reflexivity|]. symmetry.
    apply (proj2 (proj2 (proj2 (proj2
             (hasBrowserApi_resolution sample_constants "runtime" "getBackgroundPage"
                fakeMetadataV3 runtime_table)))) ∅).
Defined.

End OracleFacts.

(* ===================================================================== *)
(** * Properties of the lint rule *)
(* ===================================================================== *)

Module RuleFacts.
Import Rule Samples.

Section WithImports.
Variable Metadata : Type.
Variable messageFormat : string.
Variable hasBrowserApi : option string -> option string -> Metadata -> bool.
Variable isBrowserNamespace : option string -> bool.

(** The visitor on a member expression, branch by branch. *)
Lemma visit_computed addonMetadata object property :
  MemberExpression_visitor Metadata messageFormat hasBrowserApi isBrowserNamespace
  addonMetadata (MemberExpression object property true) = [].
Proof. reflexivity. Qed.

Lemma visit_no_base addonMetadata object property computed :
  object_of object = None ->
  MemberExpression_visitor Metadata messageFormat hasBrowserApi isBrowserNamespace
  addonMetadata (MemberExpression object property computed) = [].
Proof. intros H. cbn. rewrite H. by destruct computed. Qed.

Lemma visit_other_base addonMetadata object property computed base :
  object_of object = Some base -> isBrowserNamespace (name_of base) = false ->
  MemberExpression_visitor Metadata messageFormat hasBrowserApi isBrowserNamespace
  addonMetadata (MemberExpression object property computed) = [].
Proof. intros H Hns. cbn. rewrite H, Hns. by destruct computed. Qed.

Lemma visit_supported addonMetadata object property computed :
  hasBrowserApi (property_of object ≫= name_of) (name_of property) addonMetadata = true ->
  MemberExpression_visitor Metadata messageFormat hasBrowserApi isBrowserNamespace
  addonMetadata (MemberExpression object property computed) = [].
Proof.
  intros H. cbn. rewrite H.
  destruct computed, (object_of object) as [base|]; cbn; try done.
  by destruct (isBrowserNamespace (name_of base)).
Qed.

Lemma visit_unsupported addonMetadata object property base :
  object_of object = Some base -> isBrowserNamespace (name_of base) = true ->
  hasBrowserApi (property_of object ≫= name_of) (name_of property) addonMetadata = false ->
  MemberExpression_visitor Metadata messageFormat hasBrowserApi isBrowserNamespace
  addonMetadata (MemberExpression object property false)
  = [ mkReport (MemberExpression object property false) messageFormat
               (interpolate (property_of object ≫= name_of) +:+ "."
                +:+ interpolate (name_of property)) ].
Proof. intros H Hns Hapi. cbn. by rewrite H, Hns, Hapi. Qed.
End WithImports.

(** C9.  The visitor reports exactly when the member expression is not
    computed, its object has an object of its own whose name is a browser
    namespace identifier, and [hasBrowserApi] is false for the names of
    the object's property and of the expression's property; it reports
    nothing when the expression is computed, when there is no such base,
    or when [hasBrowserApi] is true; and it never reports more than once,
    always on the visited node with the message of [UNSUPPORTED_API]. *)
Theorem unsupported_api_reported (Metadata : Type) (messageFormat : string)
    (hasBrowserApi : option string -> option string -> Metadata -> bool)
    (isBrowserNamespace : option string -> bool)
    (addonMetadata : Metadata) (object property : node) (computed : bool) :
  let n := MemberExpression object property computed in
  let reports := MemberExpression_visitor Metadata messageFormat hasBrowserApi
                                          isBrowserNamespace addonMetadata n in
  let namespace := property_of object ≫= name_of in
  let prop := name_of property in
  (reports <> [] <->
     computed = false /\
     (exists base, object_of object = Some base /\
                   isBrowserNamespace (name_of base) = true) /\
     hasBrowserApi namespace prop addonMetadata = false) /\
  (reports = [] \/
   reports = [ mkReport n messageFormat
                        (interpolate namespace +:+ "." +:+ interpolate prop) ]) /\
  (hasBrowserApi namespace prop addonMetadata = true -> reports = []) /\
  (computed = true -> reports = []) /\
  (object_of object = None -> reports = []).
Proof.
  intros n reports namespace prop. subst n reports namespace prop.
  split; [|split; [|split; [|split]]].
  - split.
    + intros Hrep. destruct computed; [by rewrite visit_computed in Hrep|].
      split; [done|].
      destruct (object_of object) as [base|] eqn:Hbase;
        [|by rewrite visit_no_base in Hrep].
      destruct (isBrowserNamespace (name_of base)) eqn:Hns;
        [|by rewrite (visit_other_base _ _ _ _ _ _ _ _ base) in Hrep].
      split; [by exists base|].
      destruct (hasBrowserApi _ _ addonMetadata) eqn:Hapi; [|done].
      by rewrite visit_supported in Hrep.
    + intros (-> & (base & Hbase & Hns) & Hapi).
      by rewrite (visit_unsupported _ _ _ _ _ _ _ base).
  - destruct computed; [left; apply visit_computed|].
    destruct (object_of object) as [base|] eqn:Hbase;
      [|left; by apply visit_no_base].
    destruct (isBrowserNamespace (name_of base)) eqn:Hns;
      [|left; by apply visit_other_base with base].
    destruct (hasBrowserApi (property_of object ≫= name_of) (name_of property)
                            addonMetadata) eqn:Hapi.
    + left. by apply visit_supported.
    + right. by apply visit_unsupported with base.
  - apply visit_supported.
  - intros ->. apply visit_computed.
  - apply visit_no_base.
Qed.

Lemma unsupported_api_reported_witness :
  MemberExpression_visitor (option Oracle.ManifestMetadata) "{{api}} is not supported"
    sample_hasBrowserApi sample_isBrowserNamespace Oracle.fakeMetadata fake_access
  <> [] /\
  MemberExpression_visitor (option Oracle.ManifestMetadata) "{{api}} is not supported"
    sample_hasBrowserApi sample_isBrowserNamespace Oracle.fakeMetadataV3 fake_access
  = [].
Proof.
  split.
  - apply (proj2 (proj1 (unsupported_api_reported (option Oracle.ManifestMetadata)
                           "{{api}} is not supported" sample_hasBrowserApi
                           sample_isBrowserNamespace Oracle.fakeMetadata
                           (MemberExpression (Identifier "browser")
                                             (Identifier Oracle.fakeNs) false)
                           (Identifier Oracle.fakeProp) false))).
    split; [reflexivity|]. split; [|reflexivity].
    exists (Identifier "browser"). split; reflexivity.
  - apply (proj1 (proj2 (proj2 (unsupported_api_reported
                                  (option Oracle.ManifestMetadata)
                                  "{{api}} is not supported" sample_hasBrowserApi
                                  sample_isBrowserNamespace Oracle.fakeMetadataV3
                                  (MemberExpression (Identifier "browser")
                                                    (Identifier Oracle.fakeNs) false)
                                  (Identifier Oracle.fakeProp) false)))).
    reflexivity.
Defined.

(** The report for [browser.fakeAPINamespace.fakeMethod] under manifest
    version 2, when the namespace needs version 3. *)
Example fake_access_report :
  MemberExpression_visitor (option Oracle.ManifestMetadata) "{{api}} is not supported"
    sample_hasBrowserApi sample_isBrowserNamespace Oracle.fakeMetadata fake_access
  = [ mkReport fake_access "{{api}} is not supported" "fakeAPINamespace.fakeMethod" ].
Proof. reflexivity. Qed.

End RuleFacts.

(* ===================================================================== *)
(** * Further properties of the schema keywords *)
(* ===================================================================== *)

Module KeywordFacts.
Import Samples Calls ValidatorFacts.

Lemma num_le_mono coerce m m' v :
  (m' <= m)%Z -> num_le coerce m v = true -> num_le coerce m' v = true.
Proof.
  unfold num_le. destruct (ToNumber coerce v) as [n|]; [|done].
  rewrite !Z.leb_le. intros. by etrans.
Qed.

Lemma num_ge_mono coerce m m' v :
  (m <= m')%Z -> num_ge coerce m v = true -> num_ge coerce m' v = true.
Proof.
  unfold num_ge. destruct (ToNumber coerce v) as [n|]; [|done].
  rewrite !Z.leb_le. intros. by etrans.
Qed.

(** The two comparisons hold together only inside the window. *)
Lemma num_window coerce lo hi v :
  num_le coerce lo v = true -> num_ge coerce hi v = true -> (lo <= hi)%Z.
Proof.
  unfold num_le, num_ge. destruct (ToNumber coerce v) as [n|]; [|done].
  rewrite !Z.leb_le. intros. by etrans.
Qed.

(** What [validateMaxMV] computes once the fifth argument can be read. *)
Lemma validateMaxMV_cases coerce maxMV propValue schema dataPath rootData errors v :
  get rootData "manifest_version" = Ok v ->
  validateMaxMV coerce maxMV propValue schema dataPath rootData errors
  = Ok (num_ge coerce maxMV v,
        if num_ge coerce maxMV v then errors else EList [unsupported_max maxMV]).
Proof.
  intros Hget. unfold validateMaxMV. rewrite Hget. cbn.
  by destruct (num_ge coerce maxMV v).
Qed.

Lemma get_returns v k :
  v <> VUndefined -> v <> VNull -> exists w, get v k = Ok w.
Proof. intros Hu Hn. destruct v; cbn; try done; by eexists. Qed.

(** The value of [rootData && rootData.manifest_version]. *)
Lemma guarded_version_truthy rootData :
  truthy (if truthy rootData
          then match rootData with
               | VObj fs => default VUndefined (assoc "manifest_version" fs)
               | _ => VUndefined
               end
          else rootData) = true
  <-> exists fs v, rootData = VObj fs /\
                   assoc "manifest_version" fs = Some v /\ truthy v = true.
Proof.
  split.
  - destruct rootData as [| |b|n|str|items|fs]; cbn; try done.
    + by destruct b.
    + destruct (Z.eqb n 0) eqn:E; cbn; rewrite ?E; done.
    + destruct (String.eqb str EmptyString) eqn:E; cbn; rewrite ?E; done.
    + destruct (assoc "manifest_version" fs) as [v|] eqn:Hfs; cbn; [|done].
      intros Ht. by exists fs, v.
  - intros (fs & v & -> & Hfs & Ht). cbn. by rewrite Hfs.
Qed.

(** X1.  [validateMaxMV] throws a [TypeError] exactly when its fifth
    argument is [undefined] or [null]; for every other argument it
    returns a verdict; it never throws a [ReferenceError]. *)
Theorem validateMaxMV_throws_iff coerce maxMV propValue schema dataPath rootData errors :
  ((rootData = VUndefined \/ rootData = VNull) <->
   exists what, validateMaxMV coerce maxMV propValue schema dataPath rootData errors
                = Throw (TypeError what)) /\
  ((rootData <> VUndefined /\ rootData <> VNull) <->
   exists res errors',
     validateMaxMV coerce maxMV propValue schema dataPath rootData errors
     = Ok (res, errors')) /\
  (forall x, validateMaxMV coerce maxMV propValue schema dataPath rootData errors
             <> Throw (ReferenceError x)).
Proof.
  assert (rootData = VUndefined \/ rootData = VNull \/
          (rootData <> VUndefined /\ rootData <> VNull)) as [->|[->|[Hu Hn]]]
    by (destruct rootData; auto).
  - split; [|split].
    + split; [intros _; by eexists | by left].
    + split; [by intros [? _] | by intros (? & ? & ?)].
    + done.
  - split; [|split].
    + split; [intros _; by eexists | by right].
    + split; [by intros [_ ?] | by intros (? & ? & ?)].
    + done.
  - destruct (get_returns rootData "manifest_version" Hu Hn) as [v Hv].
    rewrite (validateMaxMV_cases _ _ _ _ _ _ _ v Hv).
    split; [|split].
    + split; [by intros [?|?] | by intros [? ?]].
    + split; [intros _; by eexists _, _ | done].
    + done.
Qed.

(** X2.  [validateMinMV] returns a verdict exactly when the root data is
    an object whose [manifest_version] is truthy; in every other case,
    a root that is [undefined], [null], a primitive or an array included,
    it throws the [ReferenceError] of the unbound default and never a
    [TypeError]. *)
Theorem validateMinMV_returns_iff coerce minMV propValue schema dataPath
    parentData parentDataProperty rootData errors :
  ((exists fs v, rootData = VObj fs /\
                 assoc "manifest_version" fs = Some v /\ truthy v = true) <->
   exists res errors',
     validateMinMV coerce minMV propValue schema dataPath parentData
                   parentDataProperty rootData errors = Ok (res, errors')) /\
  ((forall r, validateMinMV coerce minMV propValue schema dataPath parentData
                            parentDataProperty rootData errors <> Ok r) ->
   validateMinMV coerce minMV propValue schema dataPath parentData
                 parentDataProperty rootData errors
   = Throw (ReferenceError "MANIFEST_VERSION_DEFAULT")).
Proof.
  rewrite validateMinMV_cases. cbv zeta.
  rewrite <- guarded_version_truthy.
  destruct (truthy (if truthy rootData then _ else rootData)).
  - split; [|intros H; by destruct (H _ eq_refl)].
    split; [intros _; by eexists _, _ | done].
  - split; [|done]. split; [done | by intros (? & ? & ?)].
Qed.

(** X3.  Loosening a bound never turns a passing check into a failing
    one: a document that passes [min_manifest_version: m] passes every
    smaller bound, and one that passes [max_manifest_version: m] passes
    every larger bound, whatever the version converts to. *)
Theorem bounds_monotone coerce m m' propValue schema dataPath parentData
    parentDataProperty rootData errors :
  (validateMinMV coerce m propValue schema dataPath parentData
                 parentDataProperty rootData errors = Ok (true, errors) ->
   (m' <= m)%Z ->
   validateMinMV coerce m' propValue schema dataPath parentData
                 parentDataProperty rootData errors = Ok (true, errors)) /\
  (validateMaxMV coerce m propValue schema dataPath rootData errors
   = Ok (true, errors) ->
   (m <= m')%Z ->
   validateMaxMV coerce m' propValue schema dataPath rootData errors
   = Ok (true, errors)).
Proof.
  split.
  - rewrite !validateMinMV_cases. cbv zeta.
    destruct (truthy (if truthy rootData then _ else rootData)); [|done].
    intros H Hle.
    destruct (num_le coerce m _) eqn:Hm; [|done].
    by rewrite (num_le_mono _ _ _ _ Hle Hm).
  - unfold validateMaxMV.
    destruct (get rootData "manifest_version") as [v|]; cbn; [|done].
    intros H Hle.
    destruct (num_ge coerce m v) eqn:Hm; [|done].
    by rewrite (num_ge_mono _ _ _ _ Hle Hm).
Qed.

Lemma bounds_monotone_witness :
  validateMinMV no_coercion 2 (VObj []) (VObj []) "/browser_action" manifest_v3
                (VStr "browser_action") manifest_v3 ENull = Ok (true, ENull) /\
  validateMaxMV no_coercion 3 (VObj []) (VObj []) "/browser_action" manifest_v2 ENull
  = Ok (true, ENull).
Proof.
  split.
  - apply (proj1 (bounds_monotone no_coercion 3 2 (VObj []) (VObj [])
                    "/browser_action" manifest_v3 (VStr "browser_action")
                    manifest_v3 ENull)); [reflexivity | vm_compute; discriminate].
  - apply (proj2 (bounds_monotone no_coercion 2 3 (VObj []) (VObj [])
                    "/browser_action" manifest_v3 (VStr "browser_action")
                    manifest_v2 ENull)); [reflexivity | vm_compute; discriminate].
Defined.

(** X4.  The two version keywords on one root document: with a numeric
    version [v] other than 0 both checks pass exactly when
    [minMV <= v <= maxMV]; and for a pair of bounds with [maxMV < minMV]
    no root document at all passes both. *)
Theorem version_window coerce minMV maxMV propValue schema dataPath parentData
    parentDataProperty rootData errors :
  (forall fs v,
     rootData = VObj fs -> assoc "manifest_version" fs = Some (VNum v) ->
     v <> 0%Z ->
     (validateMinMV coerce minMV propValue schema dataPath parentData
                    parentDataProperty rootData errors = Ok (true, errors) /\
      validateMaxMV coerce maxMV propValue schema dataPath rootData errors
      = Ok (true, errors))
     <-> (minMV <= v <= maxMV)%Z) /\
  ((maxMV < minMV)%Z ->
   forall e1 e2,
     ~ (validateMinMV coerce minMV propValue schema dataPath parentData
                      parentDataProperty rootData errors = Ok (true, e1) /\
        validateMaxMV coerce maxMV propValue schema dataPath rootData errors
        = Ok (true, e2))).
Proof.
  split.
  - intros fs v -> Hfs Hv. unfold validateMinMV.
    rewrite (validateMinMV_number _ _ _ _ _ _ _ _ fs v _ Hfs Hv),
            (validateMaxMV_number _ _ _ _ _ fs v _ Hfs).
    destruct (Z.leb_spec minMV v), (Z.leb_spec v maxMV); split;
      try (intros [? ?]; done); try lia; done.
  - intros Hlt e1 e2 [Hmin Hmax].
    rewrite validateMinMV_cases in Hmin. cbv zeta in Hmin.
    destruct (truthy (if truthy rootData then _ else rootData)) eqn:Ht; [|done].
    apply guarded_version_truthy in Ht as (fs & v & -> & Hfs & Ht).
    cbn in Hmin. rewrite Hfs in Hmin. cbn in Hmin.
    unfold validateMaxMV in Hmax. cbn in Hmax. rewrite Hfs in Hmax. cbn in Hmax.
    destruct (num_le coerce minMV v) eqn:Hle; [|done].
    destruct (num_ge coerce maxMV v) eqn:Hge; [|done].
    pose proof (num_window _ _ _ _ Hle Hge). lia.
Qed.

Lemma version_window_witness :
  ((validateMinMV no_coercion 2 (VObj []) (VObj []) "/browser_action" manifest_v2
                  (VStr "browser_action") manifest_v2 ENull = Ok (true, ENull) /\
    validateMaxMV no_coercion 2 (VObj []) (VObj []) "/browser_action" manifest_v2 ENull
    = Ok (true, ENull))
   <-> (2 <= 2 <= 2)%Z) /\
  forall e1 e2,
    ~ (validateMinMV no_coercion 3 (VObj []) (VObj []) "/browser_action" manifest_v2
                     (VStr "browser_action") manifest_v2 ENull = Ok (true, e1) /\
       validateMaxMV no_coercion 2 (VObj []) (VObj []) "/browser_action" manifest_v2 ENull
       = Ok (true, e2)).
Proof.
  split.
  - apply (proj1 (version_window no_coercion 2 2 (VObj []) (VObj [])
                    "/browser_action" manifest_v2 (VStr "browser_action")
                    manifest_v2 ENull)
             [("manifest_version", VNum 2); ("browser_action", VObj [])] 2);
      [reflexivity | reflexivity | discriminate].
  - apply (proj2 (version_window no_coercion 3 2 (VObj []) (VObj [])
                    "/browser_action" manifest_v2 (VStr "browser_action")
                    manifest_v2 ENull)).
    reflexivity.
Defined.

(** X5.  The version keywords assign their [errors] property on a
    failure only: a passing call leaves the property as it found it, so
    after a failing call followed by a passing one the property still
    holds the diagnostic of the failure. *)
Theorem passing_check_keeps_errors coerce :
  (forall minMV propValue schema dataPath parentData parentDataProperty rootData
          errors errors',
     validateMinMV coerce minMV propValue schema dataPath parentData
                   parentDataProperty rootData errors = Ok (true, errors') ->
     errors' = errors) /\
  (forall maxMV propValue schema dataPath rootData errors errors',
     validateMaxMV coerce maxMV propValue schema dataPath rootData errors
     = Ok (true, errors') ->
     errors' = errors) /\
  (forall maxMV maxMV' propValue propValue' schema schema' dataPath dataPath'
          rootData rootData' errors errors' errors'',
     validateMaxMV coerce maxMV propValue schema dataPath rootData errors
     = Ok (false, errors') ->
     validateMaxMV coerce maxMV' propValue' schema' dataPath' rootData' errors'
     = Ok (true, errors'') ->
     errors'' = EList [unsupported_max maxMV]).
Proof.
  assert (forall maxMV propValue schema dataPath rootData errors res errors',
            validateMaxMV coerce maxMV propValue schema dataPath rootData errors
            = Ok (res, errors') ->
            errors' = if res then errors else EList [unsupported_max maxMV]) as Hmax.
  { intros maxMV propValue schema dataPath rootData errors res errors'.
    unfold validateMaxMV.
    destruct (get rootData "manifest_version") as [v|]; cbn; [|done].
    by destruct (num_ge coerce maxMV v); cbn; intros [= <- <-]. }
  split; [|split].
  - intros minMV propValue schema dataPath parentData parentDataProperty rootData
           errors errors'.
    rewrite validateMinMV_cases. cbv zeta.
    destruct (truthy (if truthy rootData then _ else rootData)); [|done].
    by destruct (num_le coerce minMV _); intros [= <-].
  - intros maxMV propValue schema dataPath rootData errors errors' H.
    exact (Hmax _ _ _ _ _ _ _ _ H).
  - intros maxMV maxMV' propValue propValue' schema schema' dataPath dataPath'
           rootData rootData' errors errors' errors'' H1 H2.
    rewrite (Hmax _ _ _ _ _ _ _ _ H2). exact (Hmax _ _ _ _ _ _ _ _ H1).
Qed.

Lemma passing_check_keeps_errors_witness :
  validateMaxMV no_coercion 2 (VObj []) (VObj []) "/browser_action" manifest_v3
                EUndefined = Ok (false, EList [unsupported_max 2]) /\
  validateMaxMV no_coercion 3 (VObj []) (VObj []) "/browser_action" manifest_v2
                (EList [unsupported_max 2]) = Ok (true, EList [unsupported_max 2]) /\
  EList [unsupported_max 2] = EList [unsupported_max 2].
Proof.
  split; [reflexivity|]. split; [reflexivity|].
  exact (proj2 (proj2 (passing_check_keeps_errors no_coercion))
           2 3 (VObj []) (VObj []) (VObj []) (VObj [])
           "/browser_action" "/browser_action" manifest_v3 manifest_v2
           EUndefined (EList [unsupported_max 2]) (EList [unsupported_max 2])
           eq_refl eq_refl).
Defined.

(** X6.  The message of an [unsupported] diagnostic tells which keyword
    failed and with which bound: two failures of the same keyword carry
    the same diagnostic only for the same bound, and a diagnostic of the
    minimum keyword never equals one of the maximum keyword. *)
Theorem unsupported_message_determines_bound (m m' : Z) :
  (unsupported_min m = unsupported_min m' -> m = m') /\
  (unsupported_max m = unsupported_max m' -> m = m') /\
  unsupported_min m <> unsupported_max m'.
Proof.
  unfold unsupported_min, unsupported_max.
  split; [|split].
  - intros H. injection H as H. by apply (inj _), (inj pretty) in H.
  - intros H. injection H as H. by apply (inj _), (inj pretty) in H.
  - intros H. injection H as H. cbn in H. discriminate H.
Qed.

Lemma unsupported_message_determines_bound_witness :
  unsupported_min 3 <> unsupported_max 3 /\ (2 = 2)%Z.
Proof.
  split.
  - exact (proj2 (proj2 (unsupported_message_determines_bound 3 3))).
  - exact (proj1 (unsupported_message_determines_bound 2 2) eq_refl).
Defined.

(** X7.  Under the seven-argument calling convention the maximum keyword
    reads the version from the parent of the instance and the minimum
    keyword from the root: for a property nested in an object without a
    [manifest_version] of its own the maximum check fails although the
    version of the document is within the bound, while the minimum check
    of the same call follows the document. *)
Theorem max_keyword_follows_parent coerce (m : Z) (c : keyword_call)
    (parent root : list (string * value)) (v : Z) (errors : errors_slot) :
  call_parentData c = VObj parent ->
  assoc "manifest_version" parent = None ->
  call_rootData c = VObj root ->
  assoc "manifest_version" root = Some (VNum v) ->
  v <> 0%Z -> (v <= m)%Z ->
  call_max coerce m c errors = Ok (false, EList [unsupported_max m]) /\
  call_min coerce v c errors = Ok (true, errors) /\
  (forall c', call_parentData c' = call_parentData c ->
              call_max coerce m c' errors = call_max coerce m c errors).
Proof.
  intros Hp Hpv Hr Hrv Hv Hle. split; [|split].
  - by apply call_max_reads_parent with parent.
  - unfold call_min, validateMinMV. rewrite Hr.
    rewrite (validateMinMV_number _ _ _ _ _ _ _ _ root v _ Hrv Hv).
    by rewrite Z.leb_refl.
  - intros c' Hc'. rewrite (call_max_reads_parent _ _ c _ parent Hp Hpv).
    apply call_max_reads_parent with parent; [congruence | done].
Qed.

Lemma max_keyword_follows_parent_witness :
  call_max no_coercion 2 (nested_property_call manifest_nested "background" "persistent")
           ENull = Ok (false, EList [unsupported_max 2]) /\
  call_min no_coercion 2 (nested_property_call manifest_nested "background" "persistent")
           ENull = Ok (true, ENull).
Proof.
  destruct (max_keyword_follows_parent no_coercion 2
              (nested_property_call manifest_nested "background" "persistent")
              [("persistent", VBool true)]
              [("manifest_version", VNum 2);
               ("background", VObj [("persistent", VBool true)])]
              2 ENull eq_refl eq_refl eq_refl eq_refl)
    as (Hmax & Hmin & _); [discriminate | vm_compute; discriminate |].
  by split.
Defined.

(** X8.  The deprecated check looks at the keys of the registry only:
    registries with the same keys give the same result, and adding paths
    to the registry never turns a failing check into a passing one. *)
Theorem validateDeprecated_registry_keys (registry registry' : gmap string string)
    (text : string) (propValue schema : value) (dataPath : string)
    (errors : errors_slot) :
  (dom registry = dom registry' ->
   validateDeprecated registry text propValue schema dataPath errors
   = validateDeprecated registry' text propValue schema dataPath errors) /\
  (registry ⊆ registry' ->
   (validateDeprecated registry text propValue schema dataPath errors).1 = false ->
   validateDeprecated registry' text propValue schema dataPath errors
   = (false, EList [deprecated_error text])).
Proof.
  unfold validateDeprecated. split.
  - intros Hdom.
    assert (is_Some (registry !! dataPath) <-> is_Some (registry' !! dataPath)) as Hiff
      by (by rewrite <- !elem_of_dom, Hdom).
    destruct (decide (is_Some (registry !! dataPath))) as [Hs|Hs].
    + rewrite !bool_decide_eq_true_2; [done | by apply Hiff | done].
    + rewrite !bool_decide_eq_false_2; [done | by rewrite <- Hiff | done].
  - intros Hsub.
    destruct (decide (is_Some (registry !! dataPath))) as [[x Hx]|Hs].
    + intros _. rewrite bool_decide_eq_true_2; [done|].
      exists x. by eapply lookup_weaken.
    + by rewrite bool_decide_eq_false_2.
Qed.

Lemma validateDeprecated_registry_keys_witness :
  validateDeprecated larger_registry "is deprecated" (VStr "x.png") (VObj [])
                     "/theme/images/headerURL" ENull
  = (false, EList [deprecated_error "is deprecated"]).
Proof.
  apply (proj2 (validateDeprecated_registry_keys sample_registry larger_registry
                  "is deprecated" (VStr "x.png") (VObj [])
                  "/theme/images/headerURL" ENull)).
  - apply insert_subseteq. reflexivity.
  - reflexivity.
Defined.

End KeywordFacts.

(* ===================================================================== *)
(** * Further properties of the validation facade *)
(* ===================================================================== *)

Module FacadeMore.
Import Facade Samples Calls FacadeFacts.

Lemma filter_fixpoint {A} (P : A -> Prop) `{!forall x, Decision (P x)} (l : list A) :
  filter P l = l <-> forall x, x ∈ l -> P x.
Proof.
  split.
  - intros Heq x Hx. rewrite <- Heq in Hx. by apply list_elem_of_filter in Hx as [? _].
  - induction l as [|y l IH]; [done|]. intros Hall.
    rewrite filter_cons_True by (apply Hall; left).
    f_equal. apply IH. intros x Hx. apply Hall. by right.
Qed.

Lemma filter_all_artifacts (l : list Diagnostic) :
  (forall d, d ∈ l -> keyword d = "$merge") ->
  filter (fun d => keyword d ≠ "$merge") l = [].
Proof.
  induction l as [|d l IH]; [done|]. intros Hall.
  rewrite filter_cons_False; [apply IH|].
  - intros d' Hd'. apply Hall. by right.
  - intros Hne. apply Hne, Hall. by left.
Qed.

(** An entry point that returns has made exactly one assignment. *)
Lemma run_inv engine f doc st isValid st' :
  run engine f doc st = Ok (isValid, st') ->
  exists c errors, selects f = Ok c /\ engine c doc = Ok (isValid, errors) /\
                   st' = set_errors_of f (filterErrors errors) st.
Proof.
  destruct f as [options| | | |]; cbn.
  - unfold validateAddon.
    destruct (get _ "enableManifestVersion3") as [flag|]; cbn; [|done].
    destruct (engine _ doc) as [[b e]|] eqn:He; cbn; [|done].
    intros [= <- <-]. by eexists _, _.
  - unfold validateStaticTheme.
    destruct (engine _ doc) as [[b e]|] eqn:He; cbn; [|done].
    intros [= <- <-]. by eexists _, _.
  - unfold validateLangPack.
    destruct (engine _ doc) as [[b e]|] eqn:He; cbn; [|done].
    intros [= <- <-]. by eexists _, _.
  - unfold validateDictionary.
    destruct (engine _ doc) as [[b e]|] eqn:He; cbn; [|done].
    intros [= <- <-]. by eexists _, _.
  - unfold validateLocaleMessages.
    destruct (engine _ doc) as [[b e]|] eqn:He; cbn; [|done].
    intros [= <- <-]. by eexists _, _.
Qed.

Lemma errors_of_set_other f g e st :
  same_property f g = false -> errors_of g (set_errors_of f e st) = errors_of g st.
Proof. by destruct f, g. Qed.

Lemma set_errors_of_comm f g e1 e2 st :
  same_property f g = false ->
  set_errors_of g e2 (set_errors_of f e1 st) = set_errors_of f e1 (set_errors_of g e2 st).
Proof. by destruct f, g. Qed.

(** X9.  [filterErrors] is idempotent; it returns its argument unchanged
    exactly when the argument holds no [$merge] entry; it never lengthens
    the list; and it keeps an array an array and [null] or [undefined]
    what they are. *)
Theorem filterErrors_idempotent (errors : errors_slot) :
  filterErrors (filterErrors errors) = filterErrors errors /\
  (filterErrors errors = errors <->
   forall d, d ∈ slot_list errors -> keyword d ≠ "$merge") /\
  (length (slot_list (filterErrors errors)) <= length (slot_list errors))%nat /\
  slot_truthy (filterErrors errors) = slot_truthy errors.
Proof.
  destruct errors as [| |l]; cbn.
  1,2: split; [done|]; split; [|by split];
       split; [intros _ d Hd; by apply not_elem_of_nil in Hd | done].
  split; [|split; [|split]].
  - f_equal. apply filter_fixpoint. by intros d [? _]%list_elem_of_filter.
  - rewrite <- (filter_fixpoint (fun d => keyword d ≠ "$merge") l).
    split; [by intros [= ?] | by intros ->].
  - apply length_filter.
  - done.
Qed.

(** X10.  When every entry of the engine's list is a [$merge] artifact,
    the entry point still returns the engine's verdict, and its [errors]
    property is an empty array: neither [null] nor a list with a
    diagnostic in it. *)
Theorem only_artifacts_expose_empty_array
    (engine : compiled -> value -> result (bool * errors_slot))
    (f : entry) (c : compiled) (doc : value) (st : exported)
    (isValid : bool) (l : list Diagnostic) :
  selects f = Ok c -> engine c doc = Ok (isValid, EList l) ->
  (forall d, d ∈ l -> keyword d = "$merge") ->
  exists st', run engine f doc st = Ok (isValid, st') /\
              errors_of f st' = EList [].
Proof.
  intros Hc He Hall. exists (set_errors_of f (filterErrors (EList l)) st).
  split; [by apply run_returns with c|].
  rewrite errors_of_set. cbn. by rewrite filter_all_artifacts.
Qed.

Lemma only_artifacts_expose_empty_array_witness :
  exists st', run artifact_engine ELangPack versionless_manifest initial = Ok (false, st') /\
              errors_of ELangPack st' = EList [].
Proof.
  apply (only_artifacts_expose_empty_array artifact_engine ELangPack _validateLangPack
           versionless_manifest initial false [merge_error]); [reflexivity..|].
  intros d Hd. apply list_elem_of_singleton in Hd. by rewrite Hd.
Defined.

(** X11.  A call of one entry point leaves the [errors] properties of the
    other four exported functions as they were. *)
Theorem entry_points_do_not_interfere
    (engine : compiled -> value -> result (bool * errors_slot))
    (f g : entry) (doc : value) (st st' : exported) (isValid : bool) :
  same_property f g = false ->
  run engine f doc st = Ok (isValid, st') ->
  errors_of g st' = errors_of g st.
Proof.
  intros Hfg (c & errors & _ & _ & ->)%run_inv. by apply errors_of_set_other.
Qed.

Lemma entry_points_do_not_interfere_witness :
  errors_of EStaticTheme
    (set_errors_of (EAddon VUndefined) ENull
       (set_errors_of EStaticTheme (EList [required_error]) initial))
  = EList [required_error].
Proof.
  rewrite (entry_points_do_not_interfere sample_engine (EAddon VUndefined) EStaticTheme
             manifest_v2 (set_errors_of EStaticTheme (EList [required_error]) initial)
             (set_errors_of (EAddon VUndefined) ENull
                (set_errors_of EStaticTheme (EList [required_error]) initial))
             true eq_refl eq_refl).
  reflexivity.
Defined.

(** X12.  Calls of two different entry points commute: made in either
    order they return the same verdicts and leave the same [errors]
    properties. *)
Theorem entry_points_commute
    (engine : compiled -> value -> result (bool * errors_slot))
    (f g : entry) (doc1 doc2 : value) (st st1 st2 : exported) (b1 b2 : bool) :
  same_property f g = false ->
  run engine f doc1 st = Ok (b1, st1) ->
  run engine g doc2 st1 = Ok (b2, st2) ->
  exists st1', run engine g doc2 st = Ok (b2, st1') /\
               run engine f doc1 st1' = Ok (b1, st2).
Proof.
  intros Hfg (c1 & e1 & Hc1 & He1 & ->)%run_inv (c2 & e2 & Hc2 & He2 & ->)%run_inv.
  exists (set_errors_of g (filterErrors e2) st). split.
  - by apply run_returns with c2.
  - rewrite (run_returns engine f c1 doc1 _ b1 e1 Hc1 He1).
    by rewrite (set_errors_of_comm f g _ _ _ Hfg).
Qed.

Lemma entry_points_commute_witness :
  exists st1', run sample_engine EDictionary manifest_v2 initial = Ok (true, st1') /\
               run sample_engine (EAddon VUndefined) versionless_manifest st1'
               = Ok (false,
                     set_errors_of EDictionary ENull
                       (set_errors_of (EAddon VUndefined)
                          (EList [required_error; unsupported_max 2]) initial)).
Proof.
  apply (entry_points_commute sample_engine (EAddon VUndefined) EDictionary
           versionless_manifest manifest_v2 initial
           (set_errors_of (EAddon VUndefined)
              (EList [required_error; unsupported_max 2]) initial)
           _ false true); reflexivity.
Defined.

(** X13.  The options of [validateAddon]: [null] throws a [TypeError]
    before any validator is called; omitted options behave as [{}]; and
    for option objects only the truthiness of [enableManifestVersion3]
    matters, so that any two objects whose flags are equally truthy give
    the same result. *)
Theorem validateAddon_options
    (engine : compiled -> value -> result (bool * errors_slot))
    (manifestData : value) (st : exported) :
  (exists what, validateAddon engine manifestData VNull st = Throw (TypeError what)) /\
  validateAddon engine manifestData VUndefined st
  = validateAddon engine manifestData (VObj []) st /\
  (forall fs fs',
     truthy (default VUndefined (assoc "enableManifestVersion3" fs))
     = truthy (default VUndefined (assoc "enableManifestVersion3" fs')) ->
     validateAddon engine manifestData (VObj fs) st
     = validateAddon engine manifestData (VObj fs') st) /\
  (forall fs,
     truthy (default VUndefined (assoc "enableManifestVersion3" fs)) = false ->
     validateAddon engine manifestData (VObj fs) st
     = validateAddon engine manifestData VUndefined st).
Proof.
  split; [by eexists|]. split; [done|]. split.
  - intros fs fs' Ht. unfold validateAddon. cbn. by rewrite Ht.
  - intros fs Ht. unfold validateAddon. cbn. by rewrite Ht.
Qed.

End FacadeMore.

(* ===================================================================== *)
(** * Further properties of the lint rule *)
(* ===================================================================== *)

Module RuleMore.
Import Rule Samples Calls RuleFacts.

(** X14.  The visitor does not look at the [computed] flag of the inner
    member expression: [browser[ns].prop] is reported for the same API
    name, and as often, as [browser.ns.prop]. *)
Theorem inner_computed_is_ignored (Metadata : Type) (messageFormat : string)
    (hasBrowserApi : option string -> option string -> Metadata -> bool)
    (isBrowserNamespace : option string -> bool)
    (addonMetadata : Metadata) (base namespace property : node)
    (inner inner' outer : bool) :
  report_api <$>
    MemberExpression_visitor Metadata messageFormat hasBrowserApi isBrowserNamespace
      addonMetadata
      (MemberExpression (MemberExpression base namespace inner) property outer)
  = report_api <$>
    MemberExpression_visitor Metadata messageFormat hasBrowserApi isBrowserNamespace
      addonMetadata
      (MemberExpression (MemberExpression base namespace inner') property outer).
Proof.
  cbn. destruct outer; cbn; [done|].
  destruct (isBrowserNamespace (name_of base)); [|done].
  by destruct (hasBrowserApi _ _ addonMetadata).
Qed.

(** X15.  When [isBrowserNamespace] rejects [undefined], a report is made
    only for a non-computed access exactly two levels below an
    identifier that names a browser namespace: longer chains such as
    [browser.a.b.c] are not reported at their outermost node. *)
Theorem reports_need_identifier_base (Metadata : Type) (messageFormat : string)
    (hasBrowserApi : option string -> option string -> Metadata -> bool)
    (isBrowserNamespace : option string -> bool)
    (addonMetadata : Metadata) (n : node) :
  isBrowserNamespace None = false ->
  MemberExpression_visitor Metadata messageFormat hasBrowserApi isBrowserNamespace
    addonMetadata n <> [] ->
  exists name namespace property inner,
    n = MemberExpression (MemberExpression (Identifier name) namespace inner)
                         property false /\
    isBrowserNamespace (Some name) = true /\
    hasBrowserApi (name_of namespace) (name_of property) addonMetadata = false.
Proof.
  intros Hnone Hrep.
  destruct n as [| | | |object property computed]; try done.
  destruct computed; [done|].
  destruct object as [| | | |base namespace inner]; try done.
  cbn in Hrep.
  destruct (isBrowserNamespace (name_of base)) eqn:Hns; [|done].
  destruct base as [name| | | |]; cbn in Hns; try congruence.
  destruct (hasBrowserApi (name_of namespace) (name_of property) addonMetadata) eqn:Hapi;
    [done|].
  by exists name, namespace, property, inner.
Qed.

Lemma reports_need_identifier_base_witness :
  exists name namespace property inner,
    fake_access = MemberExpression (MemberExpression (Identifier name) namespace inner)
                                   property false /\
    sample_isBrowserNamespace (Some name) = true /\
    sample_hasBrowserApi (name_of namespace) (name_of property) Oracle.fakeMetadata
    = false.
Proof.
  apply (reports_need_identifier_base (option Oracle.ManifestMetadata)
           "{{api}} is not supported" sample_hasBrowserApi sample_isBrowserNamespace
           Oracle.fakeMetadata fake_access); [reflexivity | discriminate].
Defined.

(** The bracket access is reported like the dot access, and the longer
    chain is not reported at its outermost node. *)
Example bracket_and_deep_access :
  report_api <$>
    MemberExpression_visitor (option Oracle.ManifestMetadata) "{{api}} is not supported"
      sample_hasBrowserApi sample_isBrowserNamespace Oracle.fakeMetadata bracket_access
  = ["fakeAPINamespace.fakeMethod"] /\
  MemberExpression_visitor (option Oracle.ManifestMetadata) "{{api}} is not supported"
    sample_hasBrowserApi sample_isBrowserNamespace Oracle.fakeMetadata deep_access
  = [].
Proof. split; reflexivity. Qed.

End RuleMore.
